(** * IMDb Top-250 scraper: a shallow embedding of [src/scraper.py]

    The development follows the layout of the Python module:
    - [PyStr]: the [str] methods the scraper calls ([replace], [strip],
      [split], [join], [in]);
    - [PyNum]: the builtins [float], [int] and [str] on numbers, with
      binary64 arithmetic taken from the Standard Library's [SpecFloat];
    - [Scraper]: the functions of [scraper.py], one definition per [def],
      over an abstract HTML-document interface ([Soup]) and an explicit
      trace of the effects (HTTP requests, sleeps, console lines).

    Text is modelled by [string]; each character stands for the code point
    of the same number (0..255). *)

From Stdlib Require Import ZArith Ascii List Lia SpecFloat.
From stdpp Require Import gmap strings list fin_maps pretty.

Local Open Scope Z_scope.

(** * Python [str] methods *)

Module PyStr.

(** [str.isspace] on one code point (the code points below 256 that
    Python's [strip], [int] and [float] treat as white space). *)
Definition isspace (c : ascii) : bool :=
  let n := N_of_ascii c in
  ((9 <=? n) && (n <=? 13) || (28 <=? n) && (n <=? 32)
   || (n =? 133) || (n =? 160))%N.

Definition isdigit (c : ascii) : bool :=
  let n := N_of_ascii c in ((48 <=? n) && (n <=? 57))%N.

Definition digit_val (c : ascii) : Z := Z.of_N (N_of_ascii c) - 48.

Section Strip.
Variable sp : ascii -> bool.

Fixpoint lstrip_by (s : string) : string :=
  match s with
  | String c s' => if sp c then lstrip_by s' else s
  | EmptyString => EmptyString
  end.

Fixpoint rstrip_by (s : string) : string :=
  match s with
  | EmptyString => EmptyString
  | String c s' =>
      match rstrip_by s' with
      | EmptyString => if sp c then EmptyString else String c EmptyString
      | r => String c r
      end
  end.

Definition strip_by (s : string) : string := rstrip_by (lstrip_by s).
End Strip.

(** [s.strip()] *)
Definition strip (s : string) : string := strip_by isspace s.

(** [s.replace(old, new)] for a one-character [old], which is how every
    call of the scraper uses it. *)
Fixpoint replace (old : ascii) (new : string) (s : string) : string :=
  match s with
  | EmptyString => EmptyString
  | String c s' =>
      if Ascii.eqb c old then new +:+ replace old new s'
      else String c (replace old new s')
  end.

Fixpoint drop (n : nat) (s : string) : string :=
  match n, s with
  | O, _ => s
  | S k, String _ s' => drop k s'
  | S _, EmptyString => EmptyString
  end.

(** The text before and after the leftmost occurrence of a non-empty
    [sep] in [s] ([s.partition(sep)] without its middle component);
    [None] when [sep] does not occur. *)
Fixpoint cut (sep s : string) : option (string * string) :=
  if String.prefix sep s then Some (EmptyString, drop (String.length sep) s)
  else
    match s with
    | EmptyString => None
    | String c s' =>
        match cut sep s' with
        | Some (a, b) => Some (String c a, b)
        | None => None
        end
    end.

(** [sub in s] *)
Definition contains (sub s : string) : bool :=
  match cut sub s with Some _ => true | None => false end.

(** [s.split(sep, maxsplit)] for a non-empty [sep] and [maxsplit >= 0]. *)
Fixpoint split_max (sep : string) (maxsplit : nat) (s : string) : list string :=
  match maxsplit with
  | O => [s]
  | S n =>
      match cut sep s with
      | None => [s]
      | Some (a, b) => a :: split_max sep n b
      end
  end.

(** [s.split(sep)]: every occurrence is cut.  A non-empty separator
    occurs at most [len(s)] times, so this is [s.split(sep, len(s))]. *)
Definition split (sep s : string) : list string :=
  split_max sep (String.length s) s.

(** [sep.join(l)] *)
Fixpoint join (sep : string) (l : list string) : string :=
  match l with
  | [] => EmptyString
  | [x] => x
  | x :: l' => x +:+ sep +:+ join sep l'
  end.

End PyStr.

(** * Exceptions and results *)

(** What the HTTP client raises on a transport-level fault (DNS, refused or
    reset connection, ...); the scraper never inspects it. *)
Inductive transport_fault := ConnectionError (detail : string).

(** The exceptions the scraper can end with.  [ValueError] and
    [OverflowError] carry the fixed part of the interpreter's message. *)
Inductive exn :=
| ValueError (msg : string)
| OverflowError (msg : string)
| KeyError (key : string)
| Exception (msg : string)
| RequestException (f : transport_fault).

Inductive result (A : Type) :=
| Ok (a : A)
| Raise (e : exn).
Arguments Ok {A} a.
Arguments Raise {A} e.

Definition bind {A B} (r : result A) (k : A -> result B) : result B :=
  match r with
  | Ok a => k a
  | Raise e => Raise e
  end.

#[global] Instance result_ret : MRet result := fun A a => Ok a.
#[global] Instance result_bind : MBind result := fun A B k r => bind r k.
#[global] Instance result_fmap : FMap result :=
  fun A B f r => bind r (fun a => Ok (f a)).

Definition raises {A} (r : result A) : Prop := exists e, r = Raise e.
Definition returns {A} (r : result A) : Prop := exists a, r = Ok a.

(** * Python numbers: [float], [int], [str] *)

Module PyNum.
Import PyStr.

(** binary64 *)
Definition prec : Z := 53.
Definition emax : Z := 1024.

(** White space that [int] and [float] skip at both ends of a [str]. *)
Definition isspace_num (c : ascii) : bool :=
  let n := N_of_ascii c in
  ((9 <=? n) && (n <=? 13) || (n =? 32) || (n =? 133) || (n =? 160))%N.

Definition is_underscore (c : ascii) : bool := Ascii.eqb c "_".

(** The longest prefix of digits, and the rest. *)
Fixpoint span_digits (s : string) : string * string :=
  match s with
  | String c s' =>
      if isdigit c then let '(d, r) := span_digits s' in (String c d, r)
      else (EmptyString, s)
  | EmptyString => (EmptyString, EmptyString)
  end.

Fixpoint Z_of_digits (acc : Z) (s : string) : Z :=
  match s with
  | EmptyString => acc
  | String c s' => Z_of_digits (10 * acc + digit_val c) s'
  end.

Definition take_sign (s : string) : bool * string :=
  match s with
  | String c r =>
      if Ascii.eqb c "-" then (true, r)
      else if Ascii.eqb c "+" then (false, r)
      else (false, s)
  | EmptyString => (false, s)
  end.

Definition lower (c : ascii) : ascii :=
  let n := N_of_ascii c in
  if ((65 <=? n) && (n <=? 90))%N then ascii_of_N (n + 32) else c.

Fixpoint lower_str (s : string) : string :=
  match s with
  | EmptyString => EmptyString
  | String c s' => String (lower c) (lower_str s')
  end.

(** Underscores of a numeric literal: each one must stand between two
    digits; they are dropped.  [prev] is the character before [s]. *)
Fixpoint drop_underscores (prev : ascii) (s : string) : option string :=
  match s with
  | EmptyString => if is_underscore prev then None else Some EmptyString
  | String c s' =>
      if is_underscore c then
        if isdigit prev then drop_underscores c s' else None
      else if is_underscore prev && negb (isdigit c) then None
      else String c <$> drop_underscores c s'
  end.

(** The binary64 number nearest to [m * 10^k] (ties to even; beyond the
    largest finite number, an infinity). *)
Definition float_of_decimal (neg : bool) (m k : Z) : spec_float :=
  match m with
  | Zpos p =>
      if 0 <=? k then
        let n := Zpos p * 10 ^ k in
        binary_normalize prec emax (if neg then - n else n) 0 neg
      else
        let '(q, e, l) :=
          SFdiv_core_binary prec emax (Zpos p) 0 (10 ^ (- k)) 0 in
        binary_round_aux prec emax neg q e l
  | _ => S754_zero neg
  end.

(** A float literal without surrounding space and underscores:
    [sign] digits [. digits] [e [sign] digits], or inf, infinity, nan. *)
Definition parse_float (s : string) : option spec_float :=
  let '(neg, r) := take_sign s in
  let '(ip, r1) := span_digits r in
  let '(fp, r2) :=
    match r1 with
    | String c t => if Ascii.eqb c "." then span_digits t else (EmptyString, r1)
    | EmptyString => (EmptyString, r1)
    end in
  match ip +:+ fp with
  | EmptyString =>
      let w := lower_str r in
      if String.eqb w "inf" || String.eqb w "infinity" then Some (S754_infinity neg)
      else if String.eqb w "nan" then Some S754_nan
      else None
  | ds =>
      let '(ex, r3) :=
        match r2 with
        | String c t =>
            if Ascii.eqb (lower c) "e" then
              let '(eneg, t1) := take_sign t in
              let '(ed, t2) := span_digits t1 in
              match ed with
              | EmptyString => (0, r2)
              | _ => ((if eneg then - Z_of_digits 0 ed else Z_of_digits 0 ed), t2)
              end
            else (0, r2)
        | EmptyString => (0, r2)
        end in
      match r3 with
      | EmptyString =>
          Some (float_of_decimal neg (Z_of_digits 0 ds)
                  (ex - Z.of_nat (String.length fp)))
      | _ => None
      end
  end.

(** [float(s)] for a [str] *)
Definition float (s : string) : result spec_float :=
  match drop_underscores zero (strip_by isspace_num s) with
  | Some t =>
      match parse_float t with
      | Some x => Ok x
      | None => Raise (ValueError "could not convert string to float")
      end
  | None => Raise (ValueError "could not convert string to float")
  end.

(** [x * n] for a float [x] and an int [n]: [n] is converted first. *)
Definition float_of_int (n : Z) : result spec_float :=
  match binary_normalize prec emax n 0 false with
  | S754_infinity _ => Raise (OverflowError "int too large to convert to float")
  | y => Ok y
  end.

Definition mul_int (x : spec_float) (n : Z) : result spec_float :=
  y ← float_of_int n; mret (SFmul prec emax x y).

(** [int(x)] for a float: the integer part, rounding toward zero. *)
Definition int_of_float (x : spec_float) : result Z :=
  match x with
  | S754_zero _ => Ok 0
  | S754_finite s m e =>
      let v := if 0 <=? e then Zpos m * 2 ^ e else Zpos m / 2 ^ (- e) in
      Ok (if s then - v else v)
  | S754_infinity _ =>
      Raise (OverflowError "cannot convert float infinity to integer")
  | S754_nan => Raise (ValueError "cannot convert float NaN to integer")
  end.

(** [sys.int_info.default_max_str_digits] *)
Definition int_max_str_digits : nat := 4300.

(** The leading digits of [s], with single underscores between them:
    their value, their number and the text that follows them.  An
    underscore after an underscore, or before anything but a digit, is
    an error. *)
Fixpoint scan_int (prev : ascii) (acc : Z) (ndigits : nat) (s : string)
  : option (Z * nat * string) :=
  match s with
  | EmptyString =>
      if is_underscore prev then None else Some (acc, ndigits, EmptyString)
  | String c s' =>
      if is_underscore c then
        if is_underscore prev then None else scan_int c acc ndigits s'
      else if isdigit c then scan_int c (10 * acc + digit_val c) (S ndigits) s'
      else if is_underscore prev then None
      else Some (acc, ndigits, s)
  end.

(** [int(s)] for a [str] (base 10) *)
Definition int (s : string) : result Z :=
  let '(neg, r) := take_sign (strip_by isspace_num s) in
  match r with
  | EmptyString => Raise (ValueError "invalid literal for int() with base 10")
  | String c _ =>
      if is_underscore c then
        Raise (ValueError "invalid literal for int() with base 10")
      else
        match scan_int zero 0 0 r with
        | Some (v, n, rest) =>
            if (int_max_str_digits <? n)%nat then
              Raise (ValueError "Exceeds the limit (4300 digits) for integer string conversion")
            else
              match n, rest with
              | S _, EmptyString => Ok (if neg then - v else v)
              | _, _ =>
                  Raise (ValueError "invalid literal for int() with base 10")
              end
        | None => Raise (ValueError "invalid literal for int() with base 10")
        end
  end.

End PyNum.

(** * The world of the scraper *)

(** Values stored in a movie record. *)
Inductive pyval :=
| PyNone
| PyStr (s : string)
| PyInt (n : Z).

#[global] Instance pyval_eq_dec : EqDecision pyval.
Proof. solve_decision. Defined.

(** [str(v)], as an f-string renders a value *)
Definition str_of (v : pyval) : string :=
  match v with
  | PyNone => "None"
  | PyStr s => s
  | PyInt n => pretty n
  end.

(** [dict.update]: the entries of [other] are written over those of [d]. *)
Definition update (d other : gmap string pyval) : gmap string pyval :=
  other ∪ d.

(** The part of BeautifulSoup the scraper uses, on a type of tags (a
    parsed document is a tag as well). *)
Class Soup (tag : Type) := {
  BeautifulSoup : string -> tag;          (* BeautifulSoup(content, "lxml") *)
  select : string -> tag -> list tag;     (* tag.select(css), document order *)
  get_text : tag -> string;               (* tag.get_text(strip=True) *)
  get : tag -> string -> option string;   (* tag.get(name) *)
}.

(** [tag.select_one(css)]: the first match, if any *)
Definition select_one `{Soup tag} (css : string) (t : tag) : option tag :=
  head (select css t).

(** The iteration order of a [set] of strings: some enumeration without
    repetition, which the language does not specify. *)
Class SetOrder := {
  list_of_set : gset string -> list string;
  list_of_set_NoDup : forall X, NoDup (list_of_set X);
  list_of_set_elem : forall X x, x ∈ list_of_set X <-> x ∈ X;
}.

(** What the program does to the outside, in the order it happens. *)
Inductive event :=
| EvGet (url : string) (headers : list (string * string))
| EvSleep (seconds : Z)
| EvPrint (line : string).

(** The answer to one GET request. *)
Inductive http_outcome :=
| Response (status_code : Z) (content : string)
| Fault (f : transport_fault).

(** The network: the answer to a request may depend on everything that
    happened before it. *)
Definition network := list event -> string -> http_outcome.

(** Computations with effects: from the events so far to the events
    afterwards and a value or an exception. *)
Definition io (A : Type) : Type := list event -> list event * result A.

#[global] Instance io_ret : MRet io := fun A a tr => (tr, Ok a).
#[global] Instance io_bind : MBind io := fun A B k m tr =>
  match m tr with
  | (tr', Ok a) => k a tr'
  | (tr', Raise e) => (tr', Raise e)
  end.
#[global] Instance io_fmap : FMap io := fun A B f m tr =>
  match m tr with
  | (tr', Ok a) => (tr', Ok (f a))
  | (tr', Raise e) => (tr', Raise e)
  end.

Definition lift {A} (r : result A) : io A := fun tr => (tr, r).
Definition emit (ev : event) : io unit := fun tr => (tr ++ [ev], Ok tt).
Definition print (line : string) : io unit := emit (EvPrint line).
Definition sleep (seconds : Z) : io unit := emit (EvSleep seconds).

(** * The scraper *)

Module Scraper.
Import PyStr PyNum.

Definition URL : string := "https://www.imdb.com/chart/top/".
Definition BASE_URL : string := "https://www.imdb.com".
Definition HEADERS : list (string * string) :=
  [("User-Agent",
    "Mozilla/5.0 (Windows NT 10.0; Win64; x64) AppleWebKit/537.36")].

(** [clean_votes(votes_text)]; the argument is a [str] or [None]. *)
Definition clean_votes (votes_text : option string) : result (option Z) :=
  match votes_text with
  | None => Ok None
  | Some t =>
      if String.eqb t "" || String.eqb t "N/A" then Ok None
      else
        let cleaned := strip (replace ")" "" (replace "(" "" t)) in
        if contains "M" cleaned then
          number ← float (replace "," "." (replace "M" "" cleaned));
          scaled ← mul_int number 1000000;
          Some <$> int_of_float scaled
        else if contains "K" cleaned then
          number ← float (replace "," "." (replace "K" "" cleaned));
          scaled ← mul_int number 1000;
          Some <$> int_of_float scaled
        else
          Some <$> int (replace "." "" (replace "," "" cleaned))
  end.

(** [clean_title(title_text)]; the argument is a [str] or [None]. *)
Definition clean_title (title_text : option string) : string :=
  match title_text with
  | None => "N/A"
  | Some EmptyString => "N/A"
  | Some t =>
      let parts := split_max ". " 1 t in
      if (1 <? length parts)%nat then nth 1 parts EmptyString else t
  end.

(** The first match of [(\d+h\s*\d*m?)] at the start of [s]. *)
Fixpoint span_by (p : ascii -> bool) (s : string) : string * string :=
  match s with
  | String c s' =>
      if p c then let '(d, r) := span_by p s' in (String c d, r)
      else (EmptyString, s)
  | EmptyString => (EmptyString, EmptyString)
  end.

Definition match_duration (s : string) : option string :=
  match span_by isdigit s with
  | (String d ds, String c r) =>
      if Ascii.eqb c "h" then
        let '(ws, r1) := span_by isspace r in
        let '(ms, r2) := span_by isdigit r1 in
        let m := match r2 with
                 | String c2 _ => if Ascii.eqb c2 "m" then "m" else ""
                 | EmptyString => ""
                 end in
        Some (String d ds +:+ "h" +:+ ws +:+ ms +:+ m)
      else None
  | _ => None
  end.

(** [re.search(r'(\d+h\s*\d*m?)', s)], group 1 *)
Fixpoint search_duration (s : string) : option string :=
  match match_duration s with
  | Some m => Some m
  | None =>
      match s with
      | EmptyString => None
      | String _ s' => search_duration s'
      end
  end.

(** [xs[:n]] *)
Definition slice_to {A} (n : Z) (xs : list A) : list A :=
  if 0 <=? n then take (Z.to_nat n) xs
  else take (Z.to_nat (Z.of_nat (length xs) + n)) xs.

Section WithWorld.
Context {tag : Type} `{!Soup tag} `{!SetOrder}.
Variable net : network.

(** [requests.get(url, headers=HEADERS)] *)
Definition requests_get (url : string) : io (Z * string) := fun tr =>
  (tr ++ [EvGet url HEADERS],
   match net tr url with
   | Response status_code content => Ok (status_code, content)
   | Fault f => Raise (RequestException f)
   end).

Definition fetch_page (url : string) : io tag :=
  response ← requests_get url;
  if negb (response.1 =? 200) then
    lift (Raise (Exception
                   ("Failed to fetch page. Status code: " +:+ pretty response.1)))
  else mret (BeautifulSoup response.2).

Definition extract_movie_link (movie_element : tag) : option string :=
  match select_one "a.ipc-title-link-wrapper" movie_element with
  | Some link_tag =>
      let href := default "" (get link_tag "href") in
      Some (BASE_URL +:+ nth 0 (split "?" href) EmptyString)
  | None => None
  end.

Definition extract_basic_data (movie_element : tag)
  : result (gmap string pyval) :=
  (* Title *)
  let title_tag := select_one "h3.ipc-title__text" movie_element in
  let raw_title :=
    match title_tag with Some t => get_text t | None => "N/A" end in
  let title := clean_title (Some raw_title) in
  (* Year *)
  let metadata_items := select "span.cli-title-metadata-item" movie_element in
  let year :=
    match metadata_items with m :: _ => get_text m | [] => "N/A" end in
  (* Rating *)
  let rating_tag := select_one "span.ipc-rating-star--rating" movie_element in
  let rating :=
    match rating_tag with Some t => get_text t | None => "N/A" end in
  (* Votes *)
  let votes_tag := select_one "span.ipc-rating-star--voteCount" movie_element in
  let votes_raw :=
    match votes_tag with Some t => get_text t | None => "N/A" end in
  votes ← clean_votes (Some votes_raw);
  (* Image URL *)
  let img_tag := select_one "img.ipc-image" movie_element in
  let image_url :=
    match img_tag with
    | Some t => from_option PyStr PyNone (get t "src")
    | None => PyStr "N/A"
    end in
  (* Link to detail page *)
  let detail_url := extract_movie_link movie_element in
  mret (<["title" := PyStr title]>
        (<["year" := PyStr year]>
         (<["rating" := PyStr rating]>
          (<["votes" := from_option PyInt PyNone votes]>
           (<["image_url" := image_url]>
            (<["detail_url" := from_option PyStr PyNone detail_url]> ∅)))))).

(** [list(set([link.get_text(strip=True) for link in links]))] *)
Definition distinct_texts (links : list tag) : list string :=
  list_of_set (list_to_set (get_text <$> links)).

Definition extract_movie_details (detail_url : string)
  : io (gmap string pyval) :=
  soup ← fetch_page detail_url;
  (* GENRES *)
  let genre_chips := select "a.ipc-chip span" soup in
  let genres := get_text <$> genre_chips in
  (* DURATION *)
  let runtime := select_one "li[data-testid='title-techspec_runtime']" soup in
  let duration :=
    match runtime with
    | Some r => default "N/A" (search_duration (get_text r))
    | None => "N/A"
    end in
  (* DIRECTOR, WRITERS, ACTORS *)
  let directors := distinct_texts (select "a[href*='tt_ov_1']" soup) in
  let writers := distinct_texts (select "a[href*='tt_ov_2']" soup) in
  let actors := distinct_texts (select "a[href*='tt_ov_3']" soup) in
  (* PLOT *)
  let plot_tag := select_one "span[data-testid='plot-l']" soup in
  let plot := match plot_tag with Some t => get_text t | None => "N/A" end in
  mret (<["genres" := PyStr (join ", " genres)]>
        (<["duration" := PyStr duration]>
         (<["directors" := PyStr (join ", " directors)]>
          (<["writers" := PyStr (join ", " writers)]>
           (<["actors" := PyStr (join ", " actors)]>
            (<["plot" := PyStr plot]> ∅)))))).

(** The truth value of [limit] (an [int] or [None]) and of a record
    field. *)
Definition limit_given (limit : option Z) : bool :=
  match limit with Some n => negb (n =? 0) | None => false end.

Definition truthy (v : pyval) : bool :=
  match v with
  | PyNone => false
  | PyStr s => negb (String.eqb s "")
  | PyInt n => negb (n =? 0)
  end.

(** [d[key]] *)
Definition getitem (d : gmap string pyval) (key : string) : result pyval :=
  match d !! key with
  | Some v => Ok v
  | None => Raise (KeyError key)
  end.

(** The body of the [for] loop over [enumerate(movie_elements)], from
    index [i] on; [movies] is the list built so far. *)
Fixpoint scrape_loop (include_details : bool) (total i : nat)
    (movie_elements : list tag) (movies : list (gmap string pyval))
  : io (list (gmap string pyval)) :=
  match movie_elements with
  | [] => mret movies
  | movie_element :: rest =>
      movie_data ← lift (extract_basic_data movie_element);
      enrich ←
        (if include_details then
           truthy <$> lift (getitem movie_data "detail_url")
         else mret false);
      movie_data ←
        (if enrich : bool then
           title ← lift (getitem movie_data "title");
           _ ← print ("[" +:+ pretty (S i) +:+ "/" +:+ pretty total
                      +:+ "] Fetching details for: " +:+ str_of title);
           detail_url ← lift (getitem movie_data "detail_url");
           details ← extract_movie_details (str_of detail_url);
           let movie_data := update movie_data details in
           (* Be polite: wait 1 second between requests *)
           _ ← sleep 1;
           mret movie_data
         else
           title ← lift (getitem movie_data "title");
           _ ← print ("[" +:+ pretty (S i) +:+ "/" +:+ pretty total
                      +:+ "] " +:+ str_of title);
           mret movie_data);
      scrape_loop include_details total (S i) rest (movies ++ [movie_data])
  end.

Definition scrape_top_movies (limit : option Z) (include_details : bool)
  : io (list (gmap string pyval)) :=
  _ ← print "Fetching IMDb Top 250 list...";
  soup ← fetch_page URL;
  let movie_elements := select "li.ipc-metadata-list-summary-item" soup in
  _ ← print ("Found " +:+ pretty (length movie_elements)
             +:+ " movies on list page");
  movie_elements ←
    (if limit_given limit then
       let movie_elements := slice_to (default 0 limit) movie_elements in
       _ ← print ("Limiting to " +:+ pretty (default 0 limit) +:+ " movies");
       mret movie_elements
     else mret movie_elements);
  let total := length movie_elements in
  movies ← scrape_loop include_details total 0 movie_elements [];
  _ ← print (String (ascii_of_nat 10)
               ("Successfully extracted " +:+ pretty (length movies)
                +:+ " movies"));
  mret movies.

End WithWorld.

End Scraper.

Import PyStr PyNum Scraper.

(** * Definitions used to state the properties *)

(** [int(float(text) * multiplier)]: the conversion both suffix branches of
    [clean_votes] apply to the text they have prepared. *)
Definition scaled (multiplier : Z) (text : string) : result Z :=
  number ← float text;
  product ← mul_int number multiplier;
  int_of_float product.

(** The vote-count policy read literally: in the suffix branches the text
    in front of the (first) suffix letter is the number that is parsed. *)
Definition clean_votes_as_specified (votes_text : option string)
  : result (option Z) :=
  match votes_text with
  | None => Ok None
  | Some t =>
      if String.eqb t "" || String.eqb t "N/A" then Ok None
      else
        let cleaned := strip (replace ")" "" (replace "(" "" t)) in
        match cut "M" cleaned with
        | Some (numeric_prefix, _) => Some <$> scaled 1000000 numeric_prefix
        | None =>
            match cut "K" cleaned with
            | Some (numeric_prefix, _) => Some <$> scaled 1000 numeric_prefix
            | None => Some <$> int (replace "." "" (replace "," "" cleaned))
            end
        end
  end.

(** The character of a decimal digit, and the text "(a.bM)". *)
Definition digit_char (d : nat) : ascii := ascii_of_nat (48 + d).

Definition millions_text (a b : nat) : string :=
  String "(" (String (digit_char a) (String "." (String (digit_char b) "M)"))).

(** [round(a.b * 1,000,000)]: the product is the integer (10a + b) * 100000. *)
Definition round_millions (a b : nat) : Z :=
  (10 * Z.of_nat a + Z.of_nat b) * 100000.

(** The text that [extract_basic_data] hands to [clean_votes]. *)
Definition votes_raw `{Soup tag} (e : tag) : string :=
  match select_one "span.ipc-rating-star--voteCount" e with
  | Some t => get_text t
  | None => "N/A"
  end.

(** The record that [extract_movie_details] builds from a parsed detail
    page, once the page is fetched. *)
Definition details_of `{Soup tag} `{!SetOrder} (soup : tag)
  : gmap string pyval :=
  <["genres" := PyStr (join ", " (get_text <$> select "a.ipc-chip span" soup))]>
  (<["duration" :=
       PyStr match select_one "li[data-testid='title-techspec_runtime']" soup with
             | Some r => default "N/A" (search_duration (get_text r))
             | None => "N/A"
             end]>
   (<["directors" :=
        PyStr (join ", " (distinct_texts (select "a[href*='tt_ov_1']" soup)))]>
    (<["writers" :=
         PyStr (join ", " (distinct_texts (select "a[href*='tt_ov_2']" soup)))]>
     (<["actors" :=
          PyStr (join ", " (distinct_texts (select "a[href*='tt_ov_3']" soup)))]>
      (<["plot" :=
           PyStr match select_one "span[data-testid='plot-l']" soup with
                 | Some t => get_text t
                 | None => "N/A"
                 end]> ∅))))).

(** The URLs requested and the pauses taken in a run of events. *)
Definition requests (tr : list event) : list string :=
  omap (fun ev => match ev with EvGet url _ => Some url | _ => None end) tr.

Definition sleeps (tr : list event) : list Z :=
  omap (fun ev => match ev with EvSleep n => Some n | _ => None end) tr.

(** The entries the loop of [scrape_top_movies] runs over. *)
Definition capped {A} (limit : option Z) (entries : list A) : list A :=
  if limit_given limit then slice_to (default 0 limit) entries else entries.

(** The fields of a record: those of the list page, those of the detail
    page. *)
Definition basic_keys : gset string :=
  {[ "title"; "year"; "rating"; "votes"; "image_url"; "detail_url" ]}.

Definition detail_keys : gset string :=
  {[ "genres"; "duration"; "directors"; "writers"; "actors"; "plot" ]}.

(** What the specification expects of a joined list of names: cut at the
    separator again, it lists each of the link texts once. *)
Definition names_round_trip (joined : string) (texts : list string) : Prop :=
  NoDup (split ", " joined) /\ forall x, x ∈ split ", " joined <-> x ∈ texts.

(** What holds of the field [role] of a detail record, filled from the
    links that match [css]: it is the ", "-join of the link texts, each
    once, in some order; so it is empty when no link matches, and cut at
    ", " it lists each link text once when there are links and none of
    their texts has a ", " inside. *)
Definition role_joined `{Soup tag} (details : gmap string pyval) (soup : tag)
    (role css : string) : Prop :=
  let texts := get_text <$> select css soup in
  exists joined,
    details !! role = Some (PyStr joined)
    /\ (exists names,
          NoDup names /\ (forall x, x ∈ names <-> x ∈ texts)
          /\ joined = join ", " names)
    /\ (texts = [] -> joined = "")
    /\ (texts <> [] -> Forall (fun t => contains ", " t = false) texts ->
        names_round_trip joined texts).

(** How a record of the result relates to its list entry: it is the
    basic record of the entry, or that record with the detail record of
    some fetched page merged in. *)
Definition record_of `{Soup tag} `{!SetOrder} (e : tag)
    (r : gmap string pyval) : Prop :=
  exists basic,
    extract_basic_data e = Ok basic
    /\ (r = basic \/ exists soup : tag, r = update basic (details_of soup)).

(** ** A document double

    Documents whose answers to the selectors are written out, to run the
    scraper on concrete pages. *)
Module Fixture.

(** A node records the selector it answers to within its parent. *)
#[warnings="-register-all"] Inductive node :=
| Node (css : string) (text : string) (attrs : list (string * string))
       (inner : list node).

Definition node_css (n : node) : string :=
  match n with Node css _ _ _ => css end.

Definition node_select (css : string) (n : node) : list node :=
  match n with
  | Node _ _ _ inner =>
      List.filter (fun m => String.eqb (node_css m) css) inner
  end.

Definition node_text (n : node) : string :=
  match n with Node _ text _ _ => text end.

Definition node_get (n : node) (name : string) : option string :=
  match n with
  | Node _ _ attrs _ =>
      snd <$> List.find (fun a => String.eqb (fst a) name) attrs
  end.

Definition leaf (css text : string) : node := Node css text [] [].

(** A complete list entry, one without any of the nodes, and one whose
    vote count is in billions. *)
Definition entry_full : node :=
  Node "li.ipc-metadata-list-summary-item" "" []
    [leaf "h3.ipc-title__text" "1. Cadena perpetua";
     leaf "span.cli-title-metadata-item" "1994";
     leaf "span.cli-title-metadata-item" "2h 22m";
     leaf "span.ipc-rating-star--rating" "8,7";
     leaf "span.ipc-rating-star--voteCount" "(3,1 M)";
     Node "img.ipc-image" "" [("src", "https://m.media-amazon.com/1.jpg")] [];
     Node "a.ipc-title-link-wrapper" "1. Cadena perpetua"
       [("href", "/title/tt0111161/?ref_=chttp_t_1")] []].

Definition entry_bare : node :=
  Node "li.ipc-metadata-list-summary-item" "" [] [].

Definition entry_billions : node :=
  Node "li.ipc-metadata-list-summary-item" "" []
    [leaf "h3.ipc-title__text" "3. El caballero oscuro";
     leaf "span.ipc-rating-star--voteCount" "(1.2B)"].

Definition list_page : node :=
  Node "" "" [] [entry_full; entry_bare].

Definition detail_page : node :=
  Node "" "" []
    [leaf "a.ipc-chip span" "Drama";
     leaf "li[data-testid='title-techspec_runtime']" "Duracion2h 22min";
     leaf "a[href*='tt_ov_1']" "Frank Darabont";
     leaf "a[href*='tt_ov_1']" "Frank Darabont";
     leaf "a[href*='tt_ov_2']" "Stephen King";
     leaf "a[href*='tt_ov_2']" "Frank Darabont";
     leaf "a[href*='tt_ov_3']" "Tim Robbins";
     leaf "a[href*='tt_ov_3']" "Morgan Freeman";
     leaf "span[data-testid='plot-l']" "Dos hombres encarcelados."].

(** A detail page without credits. *)
Definition bare_page : node := Node "" "" [] [].

Definition detail_url : string := "https://www.imdb.com/title/tt0111161/".
Definition bare_url : string := "https://www.imdb.com/title/tt0000000/".

Definition parse (content : string) : node :=
  if String.eqb content "list" then list_page
  else if String.eqb content "detail" then detail_page
  else bare_page.

#[global] Instance soup : Soup node :=
  {| BeautifulSoup := parse;
     select := node_select;
     get_text := node_text;
     get := node_get |}.

(** Sets enumerated in the order of stdpp's [elements]. *)
#[global] Program Instance set_order : SetOrder :=
  {| list_of_set := elements |}.
Next Obligation. intros X. apply NoDup_elements. Qed.
Next Obligation. intros X x. apply elem_of_elements. Qed.

(** The site answers the list page and the two detail pages; any other
    address is not found. *)
Definition net : network := fun _ url =>
  if String.eqb url URL then Response 200 "list"
  else if String.eqb url detail_url then Response 200 "detail"
  else if String.eqb url bare_url then Response 200 "bare"
  else Response 404 "".

(** A site that is down. *)
Definition net_down : network := fun _ _ =>
  Fault (ConnectionError "Name or service not known").

End Fixture.

(** Further pages: an entry whose image and link lack their attribute,
    an entry whose link leads nowhere, and the detail page of a film
    shorter than an hour, with a document reader that gives that page. *)
Module Pages.
Import Fixture.

Definition entry_no_attributes : node :=
  Node "li.ipc-metadata-list-summary-item" "" []
    [leaf "h3.ipc-title__text" "7. Sin datos";
     Node "img.ipc-image" "" [("alt", "poster")] [];
     Node "a.ipc-title-link-wrapper" "7. Sin datos" [] []].

Definition entry_dead_link : node :=
  Node "li.ipc-metadata-list-summary-item" "" []
    [leaf "h3.ipc-title__text" "9. Perdida";
     Node "a.ipc-title-link-wrapper" "9. Perdida"
       [("href", "/title/tt9999999/?ref_=chttp_t_9")] []].

Definition dead_url : string := "https://www.imdb.com/title/tt9999999/".

Definition short_page : node :=
  Node "" "" []
    [leaf "li[data-testid='title-techspec_runtime']" "Duracion45m"].

Definition short_soup : Soup node :=
  {| BeautifulSoup := fun _ => short_page;
     select := node_select;
     get_text := node_text;
     get := node_get |}.

End Pages.

(** ** Texts by their characters *)

(** Every character of [s] satisfies [p]; the characters of [s] that
    satisfy [p]; [s] with [f] applied to each character. *)
Fixpoint every (p : ascii -> bool) (s : string) : bool :=
  match s with
  | EmptyString => true
  | String c s' => p c && every p s'
  end.

Fixpoint keep (p : ascii -> bool) (s : string) : string :=
  match s with
  | EmptyString => EmptyString
  | String c s' => if p c then String c (keep p s') else keep p s'
  end.

(** A character of a plain count: a digit or one of the separators. *)
Definition count_char (c : ascii) : bool :=
  isdigit c || Ascii.eqb c "," || Ascii.eqb c ".".

(** The text "(nK)" for a whole number of thousands, and whether
    [clean_votes] gives [1000 * n] on it. *)
Definition thousands_text (n : nat) : string := "(" +:+ pretty n +:+ "K)".

Definition thousands_ok (n : nat) : bool :=
  match clean_votes (Some (thousands_text n)) with
  | Ok (Some v) => v =? 1000 * Z.of_nat n
  | _ => false
  end.

(** How an enriching run treats an entry: with a link the detail record
    of a fetched page is merged into the basic record, without one the
    basic record stays. *)
Definition enriched_record `{Soup tag} `{!SetOrder} (e : tag)
    (r : gmap string pyval) : Prop :=
  exists basic,
    extract_basic_data e = Ok basic
    /\ match extract_movie_link e with
       | Some _ => exists soup : tag, r = update basic (details_of soup)
       | None => r = basic
       end.

(** * The genre chart of [visualizations.py] *)

Module Visualizations.

(** [[g.strip() for g in genres_str.split(",")]] *)
Definition genres_list (genres_str : string) : list string :=
  strip <$> split "," genres_str.

(** The loop of [chart_top_genres] over the genre texts that are present
    in the table: [all_genres] is extended by the list of each. *)
Fixpoint all_genres_loop (column : list string) (all_genres : list string)
  : list string :=
  match column with
  | [] => all_genres
  | genres_str :: rest => all_genres_loop rest (all_genres ++ genres_list genres_str)
  end.

Definition all_genres (column : list string) : list string :=
  all_genres_loop column [].

End Visualizations.

#[local] Arguments String.append !s1 s2 : simpl nomatch.
#[local] Arguments ascii_dec : simpl never.

(** * Vote counts *)

Section CleanVotes.

Lemma replace_absent (c : ascii) (new p : string) :
  contains (String c "") p = false -> replace c new p = p.
Proof.
  unfold contains. induction p as [|a p IH]; [reflexivity|].
  cbn [cut String.prefix replace].
  destruct (ascii_dec c a) as [->|Hne].
  - destruct p; discriminate.
  - intros H. rewrite (proj2 (Ascii.eqb_neq a c)) by congruence.
    f_equal. apply IH. destruct (cut (String c "") p) as [[x y]|]; [discriminate|reflexivity].
Qed.

Lemma append_empty_r (s : string) : s +:+ "" = s.
Proof. induction s as [|a s IH]; [reflexivity|]. simpl. now rewrite IH. Qed.

Lemma append_assoc (s t u : string) : (s +:+ t) +:+ u = s +:+ t +:+ u.
Proof. induction s as [|a s IH]; [reflexivity|]. simpl. now rewrite IH. Qed.

Lemma replace_app (c : ascii) (new p q : string) :
  replace c new (p +:+ q) = replace c new p +:+ replace c new q.
Proof.
  induction p as [|a p IH]; [reflexivity|]. simpl. rewrite IH.
  destruct (Ascii.eqb a c); [|reflexivity]. now rewrite append_assoc.
Qed.

(** The text handed to [float] is the numeric prefix when the suffix
    letter stands once, at the end, and the prefix has no comma. *)
Lemma suffix_text (c : ascii) (p : string) :
  contains (String c "") p = false -> contains "," p = false ->
  replace "," "." (replace c "" (p +:+ String c "")) = p.
Proof.
  intros Hc Hcomma. rewrite replace_app, (replace_absent c) by assumption.
  cbn [replace]. rewrite Ascii.eqb_refl. cbn. rewrite append_empty_r.
  now apply replace_absent.
Qed.

Lemma fmap_scaled (multiplier : Z) (text : string) :
  (number ← float text;
   product ← mul_int number multiplier;
   Some <$> int_of_float product) = (Some <$> scaled multiplier text).
Proof.
  unfold scaled. destruct (float text) as [x|e]; [|reflexivity]. cbn.
  destruct (mul_int x multiplier) as [y|e]; reflexivity.
Qed.

(** [int] of a float cuts the fraction off: the result is the integer
    next to the float's value on the side of zero. *)
Lemma int_of_float_toward_zero (s : bool) (m : positive) (e : Z) :
  e < 0 ->
  exists n, int_of_float (S754_finite s m e) = Ok (if s then - n else n)
            /\ 0 <= n /\ n * 2 ^ (- e) <= Zpos m < (n + 1) * 2 ^ (- e).
Proof.
  intros He. exists (Zpos m / 2 ^ (- e)). cbn [int_of_float].
  destruct (Z.leb_spec 0 e); [lia|]. split; [reflexivity|].
  assert (0 < 2 ^ (- e)) by (apply Z.pow_pos_nonneg; lia).
  split; [apply Z.div_pos; lia|].
  pose proof (Z.mul_div_le (Zpos m) (2 ^ (- e))).
  pose proof (Z.mul_succ_div_gt (Zpos m) (2 ^ (- e))). lia.
Qed.

(** C1 (as amended). The branching of [clean_votes]: the absent value
    for an absent, empty or "N/A" text; otherwise, on the text without
    parentheses and surrounding white space: with an "M" in it, every "M"
    is deleted, every "," is read as "." and the rest goes through
    [float], times 1,000,000, [int]; else with a "K" in it, the same with
    "K" and 1,000; else "," and "." are deleted and the rest goes through
    [int].  When the letter stands once, at the end, after a prefix
    without comma, it is that prefix that is parsed. *)
Theorem clean_votes_branching (votes_text : option string) :
  (votes_text = None \/ votes_text = Some "" \/ votes_text = Some "N/A" ->
   clean_votes votes_text = Ok None)
  /\ (forall t, votes_text = Some t -> t <> "" -> t <> "N/A" ->
      let cleaned := strip (replace ")" "" (replace "(" "" t)) in
      (contains "M" cleaned = true ->
       clean_votes votes_text
       = (Some <$> scaled 1000000 (replace "," "." (replace "M" "" cleaned)))
       /\ forall p, cleaned = p +:+ "M" -> contains "M" p = false ->
                    contains "," p = false ->
                    clean_votes votes_text = (Some <$> scaled 1000000 p))
      /\ (contains "M" cleaned = false -> contains "K" cleaned = true ->
          clean_votes votes_text
          = (Some <$> scaled 1000 (replace "," "." (replace "K" "" cleaned)))
          /\ forall p, cleaned = p +:+ "K" -> contains "K" p = false ->
                       contains "," p = false ->
                       clean_votes votes_text = (Some <$> scaled 1000 p))
      /\ (contains "M" cleaned = false -> contains "K" cleaned = false ->
          clean_votes votes_text
          = (Some <$> int (replace "." "" (replace "," "" cleaned))))).
Proof.
  split.
  - intros [->|[->| ->]]; reflexivity.
  - intros t -> Hne Hna cleaned. unfold clean_votes.
    rewrite (proj2 (String.eqb_neq t "")), (proj2 (String.eqb_neq t "N/A"))
      by assumption.
    cbn [orb]. fold cleaned. split; [|split].
    + intros HM. rewrite HM, fmap_scaled. split; [reflexivity|].
      intros p Hp Hm Hcomma. now rewrite Hp, (suffix_text "M").
    + intros HM HK. rewrite HM, HK, fmap_scaled. split; [reflexivity|].
      intros p Hp Hk Hcomma. now rewrite Hp, (suffix_text "K").
    + intros HM HK. now rewrite HM, HK.
Qed.

Lemma clean_votes_branching_witness :
  clean_votes (Some "(3.2M)") = (Some <$> scaled 1000000 "3.2").
Proof.
  destruct (clean_votes_branching (Some "(3.2M)")) as [_ H].
  destruct (H "(3.2M)" eq_refl) as [HM _]; [discriminate|discriminate|].
  destruct (HM eq_refl) as [_ Hp]. apply (Hp "3.2"); reflexivity.
Defined.

(** C1 (as stated) fails: in "1M0" the numeric prefix is "1", but the
    letter is deleted wherever it stands and "10" is what is parsed. *)
Lemma clean_votes_not_prefix :
  clean_votes (Some "1M0") = Ok (Some 10000000)
  /\ clean_votes_as_specified (Some "1M0") = Ok (Some 1000000)
  /\ clean_votes (Some "1M0") <> clean_votes_as_specified (Some "1M0").
Proof.
  assert (H1 : clean_votes (Some "1M0") = Ok (Some 10000000))
    by (vm_compute; reflexivity).
  assert (H2 : clean_votes_as_specified (Some "1M0") = Ok (Some 1000000))
    by (vm_compute; reflexivity).
  split; [exact H1|]. split; [exact H2|]. rewrite H1, H2. discriminate.
Qed.

(** The examples of the docstring and of the specification. *)
Lemma clean_votes_examples :
  clean_votes (Some "(3.2M)") = Ok (Some 3200000)
  /\ clean_votes (Some "(972K)") = Ok (Some 972000)
  /\ clean_votes (Some "N/A") = Ok None
  /\ clean_votes (Some "") = Ok None
  /\ clean_votes (Some "1,234,567") = Ok (Some 1234567)
  /\ clean_votes (Some "(3,1 M)") = Ok (Some 3100000).
Proof. repeat split; vm_compute; reflexivity. Qed.

(** C2. On "(4.1M)" the product of the two floats lies just below
    4,100,000 and [int] cuts it down to 4,099,999, where the rounded
    value of 4.1 * 1,000,000 is 4,100,000. *)
Theorem clean_votes_millions_off_by_one :
  millions_text 4 1 = "(4.1M)"
  /\ clean_votes (Some (millions_text 4 1)) = Ok (Some 4099999)
  /\ round_millions 4 1 = 4100000
  /\ clean_votes (Some (millions_text 4 1)) <> Ok (Some (round_millions 4 1)).
Proof.
  split; [reflexivity|].
  assert (H : clean_votes (Some (millions_text 4 1)) = Ok (Some 4099999))
    by (vm_compute; reflexivity).
  split; [exact H|]. split; [reflexivity|]. rewrite H. discriminate.
Qed.

(** The float computed from "4.1" and its product with 1,000,000: the
    product is 4,099,999 and a fraction (the exponent is negative). *)
Lemma float_4_1_times_million :
  float "4.1" = Ok (S754_finite false 4616189618054758 (-50))
  /\ mul_int (S754_finite false 4616189618054758 (-50)) 1000000
     = Ok (S754_finite false 8804682956799999 (-31))
  /\ 4099999 * 2 ^ 31 < 8804682956799999 < 4100000 * 2 ^ 31.
Proof. repeat split; vm_compute; reflexivity. Qed.

(** Of the hundred texts "(a.bM)", all but "(4.1M)" and "(8.2M)" give
    the rounded value. *)
Lemma clean_votes_millions_elsewhere (a b : nat) :
  (a < 10)%nat -> (b < 10)%nat -> (a, b) <> (4, 1)%nat -> (a, b) <> (8, 2)%nat ->
  clean_votes (Some (millions_text a b)) = Ok (Some (round_millions a b)).
Proof.
  intros Ha Hb H41 H82.
  do 10 (destruct a as [|a];
         [do 10 (destruct b as [|b];
                 [first [congruence | vm_compute; reflexivity]|]); lia|]).
  lia.
Qed.

Lemma clean_votes_millions_at_8_2 :
  clean_votes (Some (millions_text 8 2)) = Ok (Some 8199999).
Proof. vm_compute; reflexivity. Qed.

End CleanVotes.

(** * Cutting and joining text *)

Section Cutting.

Lemma cut_unfold (sep s : string) :
  cut sep s =
  if String.prefix sep s then Some (EmptyString, drop (String.length sep) s)
  else match s with
       | EmptyString => None
       | String c s' =>
           match cut sep s' with
           | Some (a, b) => Some (String c a, b)
           | None => None
           end
       end.
Proof. destruct s; reflexivity. Qed.

Lemma prefix_app (sep rest : string) : String.prefix sep (sep +:+ rest) = true.
Proof.
  induction sep as [|c sep IH]; simpl; [destruct rest; reflexivity|].
  destruct (ascii_dec c c); [exact IH | congruence].
Qed.

Lemma drop_app (sep rest : string) : drop (String.length sep) (sep +:+ rest) = rest.
Proof. induction sep as [|c sep IH]; simpl; [reflexivity | exact IH]. Qed.

(** A text that ends with [sub] contains [sub]. *)
Lemma contains_app (sub a b : string) : contains sub (a +:+ sub +:+ b) = true.
Proof.
  unfold contains. induction a as [|c a IH].
  - change ("" +:+ sub +:+ b) with (sub +:+ b).
    rewrite cut_unfold, prefix_app. reflexivity.
  - change (String c a +:+ sub +:+ b) with (String c (a +:+ sub +:+ b)).
    rewrite cut_unfold. destruct (String.prefix sub _); [reflexivity|].
    destruct (cut sub (a +:+ sub +:+ b)) as [[x y]|]; [reflexivity|discriminate].
Qed.

(** Cutting at a character: the text before it is free of it. *)
Lemma cut_char (c : ascii) (s a b : string) :
  cut (String c "") s = Some (a, b) ->
  s = a +:+ String c b /\ contains (String c "") a = false.
Proof.
  revert a b. induction s as [|x s IH]; intros a b; simpl.
  - discriminate.
  - destruct (ascii_dec c x) as [->|Hne].
    + destruct s; intros [= <- <-]; split; reflexivity.
    + destruct (cut (String c "") s) as [[a' b']|] eqn:E; [|discriminate].
      intros [= <- <-]. destruct (IH a' b' eq_refl) as [-> Hfree].
      split; [reflexivity|]. unfold contains in *. simpl.
      destruct (ascii_dec c x); [congruence|].
      destruct (cut (String c "") a') as [[? ?]|]; [discriminate|reflexivity].
Qed.

(** [s.split(sep)[0]] *)
Lemma split_first (sep s : string) :
  nth 0 (split sep s) EmptyString
  = match cut sep s with Some (a, _) => a | None => s end.
Proof.
  unfold split. destruct s as [|c s].
  - destruct sep; reflexivity.
  - cbn [String.length split_max].
    destruct (cut sep (String c s)) as [[a b]|]; reflexivity.
Qed.

(** The first ", " of a text that goes on with ", " after a part without
    it is that one. *)
Lemma cut_comma_space (x rest : string) :
  contains ", " x = false -> cut ", " (x +:+ ", " +:+ rest) = Some (x, rest).
Proof.
  unfold contains. induction x as [|c x IH]; intros Hx.
  - destruct rest; reflexivity.
  - rewrite cut_unfold in Hx.
    destruct (String.prefix ", " (String c x)) eqn:Hp; [discriminate|].
    destruct (cut ", " x) as [[? ?]|] eqn:Hcut; [discriminate|].
    change (String c x +:+ ", " +:+ rest) with (String c (x +:+ ", " +:+ rest)).
    rewrite cut_unfold, (IH eq_refl).
    replace (String.prefix ", " (String c (x +:+ ", " +:+ rest))) with false;
      [reflexivity|].
    simpl in Hp |- *. destruct (ascii_dec "," c); [|reflexivity].
    destruct x as [|d x]; simpl in Hp |- *; [reflexivity|].
    destruct (ascii_dec " " d); [|reflexivity].
    destruct x; discriminate.
Qed.

Lemma cut_none (sep s : string) :
  contains sep s = false -> cut sep s = None.
Proof. unfold contains. destruct (cut sep s); [discriminate|reflexivity]. Qed.

Lemma split_max_join (l : list string) (x : string) (n : nat) :
  Forall (fun t => contains ", " t = false) (x :: l) ->
  (length l <= n)%nat ->
  split_max ", " n (join ", " (x :: l)) = x :: l.
Proof.
  revert x n. induction l as [|y l IH]; intros x n Hall Hn.
  - inversion_clear Hall as [|? ? Hx _]. destruct n; [reflexivity|].
    cbn [join split_max]. now rewrite (cut_none _ _ Hx).
  - inversion_clear Hall as [|? ? Hx Hrest].
    destruct n as [|n]; [simpl in Hn; lia|].
    change (join ", " (x :: y :: l)) with (x +:+ ", " +:+ join ", " (y :: l)).
    cbn [split_max]. rewrite (cut_comma_space _ _ Hx).
    f_equal. apply IH; [assumption | simpl in Hn; lia].
Qed.

Lemma length_app (a b : string) :
  String.length (a +:+ b) = (String.length a + String.length b)%nat.
Proof. induction a as [|c a IH]; simpl; [reflexivity | now rewrite IH]. Qed.

Lemma length_join (l : list string) (x : string) :
  (length l <= String.length (join ", " (x :: l)))%nat.
Proof.
  revert x. induction l as [|y l IH]; intros x; [simpl; lia|].
  change (join ", " (x :: y :: l)) with (x +:+ ", " +:+ join ", " (y :: l)).
  rewrite !length_app. specialize (IH y). simpl String.length at 2.
  simpl length. lia.
Qed.

(** Joining with ", " and splitting at ", " gives the list back, when
    it is not empty and none of its texts has a ", " inside. *)
Lemma split_join (l : list string) :
  l <> [] -> Forall (fun t => contains ", " t = false) l ->
  split ", " (join ", " l) = l.
Proof.
  destruct l as [|x l]; [congruence|]. intros _ Hall.
  unfold split. apply split_max_join; [assumption | apply length_join].
Qed.

End Cutting.

(** * Titles *)

(** C5. [clean_title] removes the ranking prefix of "1. Cadena perpetua";
    a non-empty text without the separator ". " is returned as it is; the
    empty text and the absent value give "N/A". *)
Theorem clean_title_spec :
  clean_title (Some "1. Cadena perpetua") = "Cadena perpetua"
  /\ (forall s : string,
        s <> EmptyString -> contains ". " s = false -> clean_title (Some s) = s)
  /\ clean_title None = "N/A"
  /\ clean_title (Some EmptyString) = "N/A".
Proof.
  split; [reflexivity|]. split; [|split; reflexivity].
  intros s Hne Hc. destruct s as [|c s]; [congruence|].
  unfold clean_title. cbn [split_max]. now rewrite (cut_none _ _ Hc).
Qed.

Lemma clean_title_spec_witness : clean_title (Some "Alien") = "Alien".
Proof.
  apply (proj1 (proj2 clean_title_spec)); [discriminate | reflexivity].
Defined.

(** With a separator, what follows its first occurrence is returned. *)
Lemma clean_title_cut (s a b : string) :
  cut ". " s = Some (a, b) -> clean_title (Some s) = b.
Proof.
  intros H. unfold clean_title. destruct s as [|c s]; [discriminate|].
  cbn [split_max]. rewrite H. reflexivity.
Qed.

(** * The exceptions of the vote count *)

Section VoteExceptions.

Lemma float_raises (s : string) (err : exn) :
  float s = Raise err -> exists msg, err = ValueError msg.
Proof.
  unfold float. destruct (drop_underscores _ _) as [t|]; [|intros [= <-]; eauto].
  destruct (parse_float t); [discriminate | intros [= <-]; eauto].
Qed.

Lemma mul_int_returns (x : spec_float) (n : Z) :
  n = 1000000 \/ n = 1000 -> exists y, mul_int x n = Ok y.
Proof.
  intros Hn. unfold mul_int.
  assert (Hy : exists y, float_of_int n = Ok y)
    by (destruct Hn as [-> | ->]; vm_compute; eauto).
  destruct Hy as [y ->]. cbn. eauto.
Qed.

Lemma int_of_float_raises (x : spec_float) (err : exn) :
  int_of_float x = Raise err ->
  (exists msg, err = ValueError msg) \/ (exists msg, err = OverflowError msg).
Proof. destruct x; cbn; intros [= <-]; eauto. Qed.

Lemma int_raises (s : string) (err : exn) :
  int s = Raise err -> exists msg, err = ValueError msg.
Proof.
  unfold int. destruct (take_sign _) as [neg r].
  destruct r as [|c r]; [intros [= <-]; eauto|].
  destruct (is_underscore c); [intros [= <-]; eauto|].
  destruct (scan_int _ _ _ _) as [[[v n] rest]|]; [|intros [= <-]; eauto].
  destruct (_ <? _)%nat; [intros [= <-]; eauto|].
  destruct n, rest; try discriminate; intros [= <-]; eauto.
Qed.

Lemma scaled_raises (multiplier : Z) (text : string) (err : exn) :
  multiplier = 1000000 \/ multiplier = 1000 ->
  scaled multiplier text = Raise err ->
  (exists msg, err = ValueError msg) \/ (exists msg, err = OverflowError msg).
Proof.
  intros Hm. unfold scaled.
  destruct (float text) as [x|e] eqn:Hx.
  - cbn. destruct (mul_int_returns x multiplier Hm) as [y ->]. cbn.
    apply int_of_float_raises.
  - cbn. intros [= <-]. left. exact (float_raises _ _ Hx).
Qed.

(** [clean_votes] raises nothing but [ValueError] and [OverflowError]. *)
Lemma clean_votes_raises_kind (votes_text : option string) (err : exn) :
  clean_votes votes_text = Raise err ->
  (exists msg, err = ValueError msg) \/ (exists msg, err = OverflowError msg).
Proof.
  destruct votes_text as [t|]; [|discriminate]. unfold clean_votes.
  destruct (_ || _); [discriminate|].
  destruct (contains "M" _).
  - rewrite fmap_scaled.
    destruct (scaled 1000000 _) as [v|e] eqn:Hs; [discriminate|].
    intros [= <-]. eapply scaled_raises; [|exact Hs]. now left.
  - destruct (contains "K" _).
    + rewrite fmap_scaled.
      destruct (scaled 1000 _) as [v|e] eqn:Hs; [discriminate|].
      intros [= <-]. eapply scaled_raises; [|exact Hs]. now right.
    + destruct (int _) as [v|e] eqn:Hi; [discriminate|].
      intros [= <-]. left. exact (int_raises _ _ Hi).
Qed.

End VoteExceptions.

(** * Extraction from a list entry *)

Section Extraction.
Context {tag : Type} `{!Soup tag}.

(** C6. The detail URL: the example of the specification; for every
    link node the [href] is cut before its first "?" and appended to the
    site origin; without a link node there is no URL. *)
Theorem extract_movie_link_spec :
  (forall (e link : tag),
      select_one "a.ipc-title-link-wrapper" e = Some link ->
      get link "href" = Some "/title/tt0111161/?ref_=chttp_t_1" ->
      extract_movie_link e = Some "https://www.imdb.com/title/tt0111161/")
  /\ (forall (e link : tag),
         select_one "a.ipc-title-link-wrapper" e = Some link ->
         exists path query,
           default "" (get link "href") = path +:+ query
           /\ contains "?" path = false
           /\ (query = "" \/ exists q, query = String "?" q)
           /\ extract_movie_link e = Some (BASE_URL +:+ path))
  /\ (forall e : tag,
         select_one "a.ipc-title-link-wrapper" e = None ->
         extract_movie_link e = None).
Proof.
  split; [|split].
  - intros e link Hsel Hhref. unfold extract_movie_link.
    rewrite Hsel, Hhref. reflexivity.
  - intros e link Hsel. unfold extract_movie_link. rewrite Hsel.
    set (href := default "" (get link "href")). rewrite split_first.
    destruct (cut "?" href) as [[a b]|] eqn:Hcut.
    + destruct (cut_char _ _ _ _ Hcut) as [Heq Hfree].
      exists a, (String "?" b). repeat split; eauto.
    + exists href, "". rewrite append_empty_r. repeat split; eauto.
      unfold contains. now rewrite Hcut.
  - intros e Hsel. unfold extract_movie_link. now rewrite Hsel.
Qed.

(** The record is the six basic fields, whatever the entry. *)
Lemma extract_basic_data_inv (e : tag) (d : gmap string pyval) :
  extract_basic_data e = Ok d ->
  exists title year rating votes image_url detail_url,
    clean_votes (Some (votes_raw e)) = Ok votes
    /\ detail_url = extract_movie_link e
    /\ d = <["title" := PyStr title]>
           (<["year" := PyStr year]>
            (<["rating" := PyStr rating]>
             (<["votes" := from_option PyInt PyNone votes]>
              (<["image_url" := image_url]>
               (<["detail_url" := from_option PyStr PyNone detail_url]> ∅))))).
Proof.
  unfold extract_basic_data. fold (votes_raw e).
  destruct (clean_votes (Some (votes_raw e))) as [votes|err]; [|discriminate].
  intros [= <-]. eauto 10.
Qed.

Lemma extract_basic_data_returns (e : tag) :
  returns (extract_basic_data e) <-> returns (clean_votes (Some (votes_raw e))).
Proof.
  unfold returns, extract_basic_data. fold (votes_raw e).
  destruct (clean_votes (Some (votes_raw e))) as [votes|err]; cbn.
  - split; eauto.
  - split; intros [? ?]; discriminate.
Qed.

(** C3 (as amended). [extract_basic_data] returns a record exactly when
    [clean_votes] accepts the text of the vote-count node, in particular
    whenever that node is missing; in the record each missing node shows
    as its sentinel: "N/A", or the absent value for the votes and the
    detail URL; and when [clean_votes] raises on the text of the
    vote-count node, [extract_basic_data] raises that very exception, a
    [ValueError] or an [OverflowError], and no other. *)
Theorem extract_basic_data_best_effort (e : tag) :
  (returns (extract_basic_data e) <-> returns (clean_votes (Some (votes_raw e))))
  /\ (select_one "span.ipc-rating-star--voteCount" e = None ->
      returns (extract_basic_data e))
  /\ (forall d, extract_basic_data e = Ok d ->
        (select_one "h3.ipc-title__text" e = None ->
         d !! "title" = Some (PyStr "N/A"))
        /\ (select "span.cli-title-metadata-item" e = [] ->
            d !! "year" = Some (PyStr "N/A"))
        /\ (select_one "span.ipc-rating-star--rating" e = None ->
            d !! "rating" = Some (PyStr "N/A"))
        /\ (select_one "span.ipc-rating-star--voteCount" e = None ->
            d !! "votes" = Some PyNone)
        /\ (select_one "img.ipc-image" e = None ->
            d !! "image_url" = Some (PyStr "N/A"))
        /\ (select_one "a.ipc-title-link-wrapper" e = None ->
            d !! "detail_url" = Some PyNone))
  /\ (forall err, extract_basic_data e = Raise err
                  <-> clean_votes (Some (votes_raw e)) = Raise err)
  /\ (forall err, extract_basic_data e = Raise err ->
                  (exists msg, err = ValueError msg)
                  \/ (exists msg, err = OverflowError msg)).
Proof.
  assert (Hraise : forall err, extract_basic_data e = Raise err
                               <-> clean_votes (Some (votes_raw e)) = Raise err).
  { intros err. unfold extract_basic_data. fold (votes_raw e).
    destruct (clean_votes (Some (votes_raw e))) as [votes|err'];
      unfold mbind, result_bind, bind, mret, result_ret;
      split; intros Heq;
      first [discriminate Heq | injection Heq as ->; reflexivity]. }
  split; [apply extract_basic_data_returns|]. split; [|split; [|split]].
  4:{ intros err Herr. apply Hraise in Herr.
      exact (clean_votes_raises_kind _ _ Herr). }
  3:{ exact Hraise. }
  - intros Hv. apply extract_basic_data_returns. unfold votes_raw.
    rewrite Hv. exists None. reflexivity.
  - intros d. unfold extract_basic_data. fold (votes_raw e).
    destruct (clean_votes (Some (votes_raw e))) as [votes|err] eqn:Hvotes;
      [|discriminate].
    intros [= <-]. repeat split.
    + intros ->. reflexivity.
    + intros ->. reflexivity.
    + intros ->. reflexivity.
    + intros Hv. unfold votes_raw in Hvotes. rewrite Hv in Hvotes.
      injection Hvotes as <-. reflexivity.
    + intros ->. reflexivity.
    + intros Hl. unfold extract_movie_link. rewrite Hl. reflexivity.
Qed.

End Extraction.

(** C3 (as stated) fails: the entry whose vote count reads "(1.2B)" makes
    [int] reject "12B", and the exception leaves [extract_basic_data]. *)
Lemma extract_basic_data_raises :
  extract_basic_data Fixture.entry_billions
  = Raise (ValueError "invalid literal for int() with base 10")
  /\ ~ returns (extract_basic_data Fixture.entry_billions).
Proof.
  assert (H : extract_basic_data Fixture.entry_billions
              = Raise (ValueError "invalid literal for int() with base 10"))
    by (vm_compute; reflexivity).
  split; [exact H|]. rewrite H. intros [d Hd]. discriminate.
Qed.

Lemma extract_movie_link_spec_witness :
  extract_movie_link Fixture.entry_full
  = Some "https://www.imdb.com/title/tt0111161/".
Proof.
  eapply (proj1 extract_movie_link_spec); reflexivity.
Defined.

Lemma extract_basic_data_best_effort_witness :
  returns (extract_basic_data Fixture.entry_bare).
Proof.
  apply (proj1 (proj2 (extract_basic_data_best_effort Fixture.entry_bare))).
  reflexivity.
Defined.

(** * Fetching pages *)

Section Fetching.
Context {tag : Type} `{!Soup tag} `{!SetOrder}.
Variable net : network.

Lemma fetch_page_eq (url : string) (tr : list event) :
  fetch_page net url tr
  = (tr ++ [EvGet url HEADERS],
     match net tr url with
     | Response status content =>
         if status =? 200 then Ok (BeautifulSoup content)
         else Raise (Exception ("Failed to fetch page. Status code: "
                                +:+ pretty status))
     | Fault f => Raise (RequestException f)
     end).
Proof.
  unfold fetch_page, mbind, io_bind, requests_get.
  destruct (net tr url) as [status content|f]; [|reflexivity].
  cbn [fst snd negb]. destruct (status =? 200); reflexivity.
Qed.

(** C7. [fetch_page] returns the parsed body of a response with status
    200; for any other status it raises an exception whose message ends
    with the status code; a fault of the transport is raised as it is.
    In each case exactly one request has been sent. *)
Theorem fetch_page_contract (url : string) (tr : list event) :
  (forall content, net tr url = Response 200 content ->
     fetch_page net url tr
     = (tr ++ [EvGet url HEADERS], Ok (BeautifulSoup content)))
  /\ (forall status content,
        net tr url = Response status content -> status <> 200 ->
        exists msg,
          fetch_page net url tr
          = (tr ++ [EvGet url HEADERS], Raise (Exception msg))
          /\ msg = "Failed to fetch page. Status code: " +:+ pretty status
          /\ contains (pretty status) msg = true)
  /\ (forall f, net tr url = Fault f ->
        fetch_page net url tr
        = (tr ++ [EvGet url HEADERS], Raise (RequestException f))).
Proof.
  rewrite fetch_page_eq. split; [|split].
  - intros content ->. reflexivity.
  - intros status content -> Hne.
    destruct (Z.eqb_spec status 200); [contradiction|].
    eexists. split; [reflexivity|]. split; [reflexivity|].
    rewrite <- (append_empty_r (pretty status)) at 2.
    apply contains_app.
  - intros f ->. reflexivity.
Qed.

Lemma extract_movie_details_eq (url : string) (tr : list event) :
  extract_movie_details net url tr
  = (tr ++ [EvGet url HEADERS], details_of <$> (fetch_page net url tr).2).
Proof.
  unfold extract_movie_details, mbind, io_bind. rewrite fetch_page_eq.
  cbn [snd]. destruct (net tr url) as [status content|f]; [|reflexivity].
  destruct (status =? 200); reflexivity.
Qed.

Lemma extract_movie_details_inv (url : string) (tr tr' : list event)
    (details : gmap string pyval) :
  extract_movie_details net url tr = (tr', Ok details) ->
  exists content,
    net tr url = Response 200 content
    /\ tr' = tr ++ [EvGet url HEADERS]
    /\ details = details_of (BeautifulSoup content).
Proof.
  rewrite extract_movie_details_eq, fetch_page_eq. cbn [snd].
  destruct (net tr url) as [status content|f]; [|discriminate].
  destruct (Z.eqb_spec status 200) as [->|]; [|discriminate].
  intros [= <- <-]. eauto.
Qed.

Lemma dom_details_of (soup : tag) : dom (details_of soup) = detail_keys.
Proof.
  unfold details_of, detail_keys. rewrite !dom_insert_L, dom_empty_L.
  set_solver.
Qed.

Lemma dom_basic (e : tag) (d : gmap string pyval) :
  extract_basic_data e = Ok d -> dom d = basic_keys.
Proof.
  intros (? & ? & ? & ? & ? & ? & _ & _ & ->)%extract_basic_data_inv.
  unfold basic_keys. rewrite !dom_insert_L, dom_empty_L. set_solver.
Qed.

Lemma keys_disjoint : basic_keys ## detail_keys.
Proof. apply (bool_decide_unpack _). vm_compute. exact I. Qed.

(** C10. Merging the detail record into the basic record of an entry
    leaves each of the six basic fields as it was and adds the six
    detail fields: the two sets of keys are disjoint. *)
Theorem update_keeps_basic_fields (e : tag) (url : string)
    (tr tr' : list event) (basic details : gmap string pyval) :
  extract_basic_data e = Ok basic ->
  extract_movie_details net url tr = (tr', Ok details) ->
  dom basic = basic_keys /\ dom details = detail_keys
  /\ basic_keys ## detail_keys
  /\ (forall k, k ∈ basic_keys -> update basic details !! k = basic !! k)
  /\ (forall k, k ∈ detail_keys -> update basic details !! k = details !! k)
  /\ dom (update basic details) = basic_keys ∪ detail_keys.
Proof.
  intros Hb (content & _ & _ & ->)%extract_movie_details_inv.
  pose proof (dom_basic _ _ Hb) as Hdb.
  pose proof (dom_details_of (BeautifulSoup content)) as Hdd.
  pose proof keys_disjoint as Hdis.
  split; [assumption|]. split; [assumption|]. split; [assumption|].
  unfold update. split; [|split].
  - intros k Hk. apply lookup_union_r, not_elem_of_dom.
    rewrite Hdd. intros Hk'.
    exact (proj1 (elem_of_disjoint _ _) Hdis k Hk Hk').
  - intros k Hk. rewrite <- Hdd in Hk. apply elem_of_dom in Hk as [v Hv].
    rewrite Hv. now apply lookup_union_Some_l.
  - rewrite dom_union_L, Hdb, Hdd. set_solver.
Qed.

End Fetching.

(** * Contributor names *)

Section Contributors.
Context {tag : Type} `{!Soup tag} `{!SetOrder}.
Variable net : network.

Lemma list_of_set_empty : list_of_set ∅ = [].
Proof.
  destruct (list_of_set ∅) as [|x l] eqn:E; [reflexivity|].
  assert (Hx : x ∈ list_of_set ∅) by (rewrite E; left).
  apply list_of_set_elem in Hx. now apply not_elem_of_empty in Hx.
Qed.

Lemma distinct_texts_elem (links : list tag) (x : string) :
  x ∈ distinct_texts links <-> x ∈ get_text <$> links.
Proof.
  unfold distinct_texts. rewrite list_of_set_elem. apply elem_of_list_to_set.
Qed.

Lemma role_joined_of (soup : tag) (role css : string) :
  details_of soup !! role
  = Some (PyStr (join ", " (distinct_texts (select css soup)))) ->
  role_joined (details_of soup) soup role css.
Proof.
  intros Hrole. unfold role_joined. eexists. split; [exact Hrole|].
  split; [|split].
  - exists (distinct_texts (select css soup)).
    split; [apply list_of_set_NoDup|]. split; [|reflexivity].
    intros x. apply distinct_texts_elem.
  - intros Hnil. unfold distinct_texts. rewrite Hnil. cbn [list_to_set foldr].
    now rewrite list_of_set_empty.
  - intros Hne Hall.
    assert (Hl : distinct_texts (select css soup) <> []).
    { destruct (get_text <$> select css soup) as [|t ts] eqn:E; [congruence|].
      intros Hnil.
      assert (Ht : t ∈ distinct_texts (select css soup))
        by (apply distinct_texts_elem; rewrite E; left).
      rewrite Hnil in Ht. now apply not_elem_of_nil in Ht. }
    rewrite Forall_forall in Hall. unfold names_round_trip.
    rewrite split_join; [| assumption |].
    + split; [apply list_of_set_NoDup | apply distinct_texts_elem].
    + apply Forall_forall. intros x Hx. apply Hall.
      now apply distinct_texts_elem.
Qed.

(** C9 (as amended). After a detail page is fetched, each of the fields
    directors, writers and actors is the ", "-join of the distinct texts
    of the links with that role's marker, each once, in the order the
    set gives them.  It is empty when no link matches; when links match
    and none of their texts has a ", " inside, cutting the field at ", "
    gives each distinct text once. *)
Theorem contributor_names (url : string) (tr : list event) (content : string) :
  net tr url = Response 200 content ->
  let soup := BeautifulSoup content in
  exists details,
    extract_movie_details net url tr = (tr ++ [EvGet url HEADERS], Ok details)
    /\ role_joined details soup "directors" "a[href*='tt_ov_1']"
    /\ role_joined details soup "writers" "a[href*='tt_ov_2']"
    /\ role_joined details soup "actors" "a[href*='tt_ov_3']".
Proof.
  intros Hnet soup. exists (details_of soup). split.
  - rewrite extract_movie_details_eq, fetch_page_eq, Hnet. reflexivity.
  - repeat split; apply role_joined_of; reflexivity.
Qed.

End Contributors.

(** C9 (as stated) fails on a page without credits: the field is the
    empty text, which cut at ", " is the list of one empty name, while no
    link gave a name. *)
Lemma directors_of_bare_page :
  extract_movie_details Fixture.net Fixture.bare_url []
  = ([EvGet Fixture.bare_url HEADERS], Ok (details_of Fixture.bare_page))
  /\ details_of Fixture.bare_page !! "directors" = Some (PyStr "")
  /\ get_text <$> select "a[href*='tt_ov_1']" Fixture.bare_page = []
  /\ split ", " "" = [""]
  /\ ~ names_round_trip "" (get_text <$> select "a[href*='tt_ov_1']" Fixture.bare_page).
Proof.
  split; [vm_compute; reflexivity|]. split; [vm_compute; reflexivity|].
  split; [reflexivity|]. split; [reflexivity|].
  intros [_ H]. specialize (H ""). destruct H as [H _].
  assert (Hin : "" ∈ split ", " "") by (vm_compute; left).
  apply H in Hin. cbn in Hin. now apply not_elem_of_nil in Hin.
Qed.

Lemma contributor_names_witness :
  exists details,
    extract_movie_details Fixture.net Fixture.detail_url []
    = ([] ++ [EvGet Fixture.detail_url HEADERS], Ok details)
    /\ role_joined details (BeautifulSoup "detail") "directors" "a[href*='tt_ov_1']"
    /\ role_joined details (BeautifulSoup "detail") "writers" "a[href*='tt_ov_2']"
    /\ role_joined details (BeautifulSoup "detail") "actors" "a[href*='tt_ov_3']".
Proof.
  apply (contributor_names Fixture.net Fixture.detail_url [] "detail").
  reflexivity.
Defined.

Lemma fetch_page_contract_witness :
  fetch_page Fixture.net URL []
  = ([] ++ [EvGet URL HEADERS], Ok (BeautifulSoup "list")).
Proof.
  apply (proj1 (fetch_page_contract Fixture.net URL [])). reflexivity.
Defined.

Lemma update_keeps_basic_fields_witness :
  exists basic details,
    extract_basic_data Fixture.entry_full = Ok basic
    /\ forall k, k ∈ basic_keys -> update basic details !! k = basic !! k.
Proof.
  destruct (extract_basic_data Fixture.entry_full) as [basic|err] eqn:Hb;
    [|vm_compute in Hb; discriminate].
  exists basic, (details_of Fixture.detail_page). split; [reflexivity|].
  apply (update_keeps_basic_fields Fixture.net Fixture.entry_full
           Fixture.detail_url [] [EvGet Fixture.detail_url HEADERS]
           basic (details_of Fixture.detail_page) Hb).
  vm_compute. reflexivity.
Defined.

(** * The list orchestrator *)

Section Orchestrator.
Context {tag : Type} `{!Soup tag} `{!SetOrder}.
Variable net : network.

Lemma getitem_basic (e : tag) (d : gmap string pyval) :
  extract_basic_data e = Ok d ->
  (exists title, getitem d "title" = Ok (PyStr title))
  /\ getitem d "detail_url"
     = Ok (from_option PyStr PyNone (extract_movie_link e)).
Proof.
  intros (title & ? & ? & ? & ? & ? & _ & -> & ->)%extract_basic_data_inv.
  split; [exists title|]; reflexivity.
Qed.

Lemma requests_app (a b : list event) : requests (a ++ b) = requests a ++ requests b.
Proof. apply omap_app. Qed.

Lemma sleeps_app (a b : list event) : sleeps (a ++ b) = sleeps a ++ sleeps b.
Proof. apply omap_app. Qed.

(** Without enrichment the loop only prints, and its result is the
    basic record of each entry in turn (or the first exception). *)
Lemma scrape_loop_basic (movie_elements : list tag) :
  forall (total i : nat) (movies : list (gmap string pyval)) (tr : list event),
  exists new,
    scrape_loop net false total i movie_elements movies tr
    = (tr ++ new,
       (fun records => movies ++ records)
         <$> mapM extract_basic_data movie_elements)
    /\ requests new = [] /\ sleeps new = [].
Proof.
  induction movie_elements as [|e rest IH]; intros total i movies tr.
  - exists []. cbn. rewrite !app_nil_r. repeat split.
  - cbn [scrape_loop mapM]. unfold mbind at 1, io_bind at 1, lift at 1.
    destruct (extract_basic_data e) as [d|err] eqn:Hd.
    + destruct (getitem_basic _ _ Hd) as [[title Ht] _].
      unfold mbind at 1, io_bind at 1, mret at 1, io_ret at 1.
      unfold mbind at 1, io_bind at 1.
      unfold mbind at 1, io_bind at 1, lift at 1. rewrite Ht.
      unfold mbind at 1, io_bind at 1, print at 1, emit at 1.
      unfold mret at 1, io_ret at 1.
      destruct (IH total (S i) (movies ++ [d])
                  (tr ++ [EvPrint ("[" +:+ pretty (S i) +:+ "/" +:+ pretty total
                                   +:+ "] " +:+ str_of (PyStr title))]))
        as (new & -> & Hreq & Hsl).
      eexists (_ :: new). rewrite <- app_assoc. split; [|split].
      * f_equal. cbn. destruct (mapM extract_basic_data rest); cbn;
          [now rewrite <- app_assoc | reflexivity].
      * exact Hreq.
      * exact Hsl.
    + exists []. rewrite app_nil_r. repeat split.
Qed.

(** The run of [scrape_top_movies], laid out: the list request, the
    loop over the capped entries, the closing line. *)
Lemma scrape_top_movies_eq (limit : option Z) (include_details : bool)
    (tr : list event) :
  scrape_top_movies net limit include_details tr
  = let tr0 := tr ++ [EvPrint "Fetching IMDb Top 250 list..."] in
    match (fetch_page net URL tr0).2 with
    | Raise err => (tr0 ++ [EvGet URL HEADERS], Raise err)
    | Ok soup =>
        let entries := select "li.ipc-metadata-list-summary-item" soup in
        let tr1 :=
          (tr0 ++ [EvGet URL HEADERS])
            ++ [EvPrint ("Found " +:+ pretty (length entries)
                         +:+ " movies on list page")] in
        let tr2 :=
          if limit_given limit then
            tr1 ++ [EvPrint ("Limiting to " +:+ pretty (default 0 limit)
                             +:+ " movies")]
          else tr1 in
        match scrape_loop net include_details (length (capped limit entries))
                0 (capped limit entries) [] tr2 with
        | (tr3, Ok movies) =>
            (tr3 ++ [EvPrint (String (ascii_of_nat 10)
                                ("Successfully extracted "
                                 +:+ pretty (length movies) +:+ " movies"))],
             Ok movies)
        | (tr3, Raise err) => (tr3, Raise err)
        end
    end.
Proof.
  unfold scrape_top_movies.
  unfold mbind at 1, io_bind at 1, print at 1, emit at 1.
  unfold mbind at 1, io_bind at 1. rewrite fetch_page_eq. cbn [snd].
  cbv zeta.
  destruct (net (tr ++ [EvPrint "Fetching IMDb Top 250 list..."]) URL)
    as [status content|f]; [|reflexivity].
  destruct (status =? 200); [|reflexivity].
  unfold mbind at 1, io_bind at 1, print at 1, emit at 1.
  unfold mbind at 1, io_bind at 1.
  unfold capped. destruct (limit_given limit).
  - unfold mbind at 1, io_bind at 1, print at 1, emit at 1.
    unfold mret at 1, io_ret at 1.
    unfold mbind at 1, io_bind at 1.
    destruct (scrape_loop _ _ _ _ _ _ _) as [tr3 [movies|err]]; reflexivity.
  - unfold mret at 1, io_ret at 1.
    unfold mbind at 1, io_bind at 1.
    destruct (scrape_loop _ _ _ _ _ _ _) as [tr3 [movies|err]]; reflexivity.
Qed.

(** C8. Without enrichment, a run of [scrape_top_movies] requests the
    list page and nothing else, never sleeps, and its result is the
    basic record of each entry under the cap, in order (or the exception
    of the list request or of the first entry whose votes do not
    parse). *)
Theorem scrape_without_details (limit : option Z) (tr : list event) :
  exists new,
    (scrape_top_movies net limit false tr).1 = tr ++ new
    /\ requests new = [URL]
    /\ sleeps new = []
    /\ (scrape_top_movies net limit false tr).2
       = (soup ← (fetch_page net URL
                    (tr ++ [EvPrint "Fetching IMDb Top 250 list..."])).2;
          mapM extract_basic_data
            (capped limit (select "li.ipc-metadata-list-summary-item" soup))).
Proof.
  rewrite scrape_top_movies_eq. cbv zeta.
  destruct (fetch_page net URL _).2 as [soup|err].
  2:{ eexists. rewrite <- app_assoc. split; [reflexivity|]. repeat split. }
  set (entries := select _ soup). cbn [mbind result_bind bind].
  destruct (limit_given limit).
  all: match goal with
       | |- context [scrape_loop net false ?total ?i ?els ?ms ?trl] =>
           destruct (scrape_loop_basic els total i ms trl)
             as (new & -> & Hreq & Hsl)
       end.
  all: subst entries;
    destruct (mapM extract_basic_data (capped limit _)) as [rs|err];
    cbn [fmap result_fmap bind fst snd].
  all: eexists; rewrite <- !app_assoc; (split; [reflexivity|]).
  all: rewrite ?requests_app, ?sleeps_app, ?Hreq, ?Hsl; repeat split.
Qed.

(** Steps of a computation with effects. *)
Lemma bind_assoc {A B C} (m : io A) (k1 : A -> io B) (k2 : B -> io C)
    (tr : list event) :
  ((m ≫= k1) ≫= k2) tr = (m ≫= (fun a => k1 a ≫= k2)) tr.
Proof.
  unfold mbind, io_bind. destruct (m tr) as [tr1 [a|err]]; reflexivity.
Qed.

Lemma bind_lift {A B} (r : result A) (k : A -> io B) (tr : list event) :
  (lift r ≫= k) tr
  = match r with Ok a => k a tr | Raise err => (tr, Raise err) end.
Proof. destruct r; reflexivity. Qed.

Lemma bind_fmap_lift {A B C} (f : A -> B) (r : result A) (k : B -> io C)
    (tr : list event) :
  ((f <$> lift r) ≫= k) tr
  = match r with Ok a => k (f a) tr | Raise err => (tr, Raise err) end.
Proof. destruct r; reflexivity. Qed.

Lemma bind_ret {A B} (a : A) (k : A -> io B) (tr : list event) :
  (mret a ≫= k) tr = k a tr.
Proof. reflexivity. Qed.

Lemma bind_emit {B} (ev : event) (k : unit -> io B) (tr : list event) :
  (emit ev ≫= k) tr = k tt (tr ++ [ev]).
Proof. reflexivity. Qed.

(** Whatever the enrichment, a loop that ends well has added one
    record per entry, in the order of the entries. *)
Lemma scrape_loop_ok (include_details : bool) (movie_elements : list tag) :
  forall (total i : nat) (movies out : list (gmap string pyval))
         (tr tr' : list event),
    scrape_loop net include_details total i movie_elements movies tr
    = (tr', Ok out) ->
    exists records,
      out = movies ++ records /\ Forall2 record_of movie_elements records.
Proof.
  induction movie_elements as [|e rest IH]; intros total i movies out tr tr'.
  - intros [= <- <-]. exists []. rewrite app_nil_r. split; constructor.
  - cbn [scrape_loop]. rewrite bind_lift.
    destruct (extract_basic_data e) as [d|err] eqn:Hd; [|discriminate].
    destruct (getitem_basic _ _ Hd) as [[title Ht] Hu].
    assert (Hstep : forall (r : gmap string pyval) (tr1 : list event),
               record_of e r ->
               scrape_loop net include_details total (S i) rest
                 (movies ++ [r]) tr1 = (tr', Ok out) ->
               exists records,
                 out = movies ++ records
                 /\ Forall2 record_of (e :: rest) records).
    { intros r tr1 Hr Hrun. destruct (IH _ _ _ _ _ _ Hrun) as (rs & -> & Hrs).
      exists (r :: rs). rewrite <- app_assoc. split; [reflexivity|].
      now constructor. }
    assert (Hplain : record_of e d) by (exists d; split; [assumption | now left]).
    assert (Hno : forall tr0,
               ((title ← lift (getitem d "title");
                 _ ← print ("[" +:+ pretty (S i) +:+ "/" +:+ pretty total
                            +:+ "] " +:+ str_of title);
                 mret d)
                ≫= (fun movie_data =>
                      scrape_loop net include_details total (S i) rest
                        (movies ++ [movie_data]))) tr0 = (tr', Ok out) ->
               exists records,
                 out = movies ++ records
                 /\ Forall2 record_of (e :: rest) records).
    { intros tr0. rewrite bind_assoc, bind_lift, Ht.
      unfold print. rewrite bind_assoc, bind_emit, bind_ret.
      now apply Hstep. }
    destruct include_details.
    + rewrite bind_fmap_lift, Hu. destruct (truthy _); [|apply Hno].
      rewrite bind_assoc, bind_lift, Ht.
      unfold print. rewrite bind_assoc, bind_emit.
      rewrite bind_assoc, bind_lift.
      rewrite bind_assoc. unfold mbind at 1, io_bind at 1.
      rewrite extract_movie_details_eq, fetch_page_eq. cbn [snd].
      destruct (net _ _) as [status content|f]; [|discriminate].
      destruct (status =? 200); [|discriminate].
      cbn [fmap result_fmap bind].
      unfold sleep. rewrite bind_assoc, bind_emit, bind_ret.
      apply Hstep. exists d. split; [assumption|]. right. eauto.
    + rewrite bind_ret. apply Hno.
Qed.

(** A run that ends well returns one record per capped entry, in the
    order of the list page. *)
Lemma scrape_top_movies_ok (limit : option Z) (include_details : bool)
    (tr tr' : list event) (movies : list (gmap string pyval)) :
  scrape_top_movies net limit include_details tr = (tr', Ok movies) ->
  exists soup,
    (fetch_page net URL (tr ++ [EvPrint "Fetching IMDb Top 250 list..."])).2
    = Ok soup
    /\ Forall2 record_of
         (capped limit (select "li.ipc-metadata-list-summary-item" soup))
         movies.
Proof.
  rewrite scrape_top_movies_eq. cbv zeta.
  destruct (fetch_page net URL _).2 as [soup|err]; [|discriminate].
  destruct (scrape_loop _ _ _ _ _ _ _) as [tr3 [out|err]] eqn:Hloop;
    [|discriminate].
  intros [= <- <-]. exists soup. split; [reflexivity|].
  destruct (scrape_loop_ok _ _ _ _ _ _ _ _ Hloop) as (rs & -> & Hrs).
  exact Hrs.
Qed.

Lemma slice_to_positive {A} (n : Z) (xs : list A) :
  0 < n -> slice_to n xs = take (Z.to_nat n) xs.
Proof. intros Hn. unfold slice_to. destruct (Z.leb_spec 0 n); [reflexivity|lia]. Qed.

(** A cap of at least one entry: the run returns the records of the
    first [n] entries, [min n available] of them. *)
Lemma scrape_cap_positive (n : Z) (include_details : bool)
    (tr tr' : list event) (movies : list (gmap string pyval)) :
  0 < n ->
  scrape_top_movies net (Some n) include_details tr = (tr', Ok movies) ->
  exists soup,
    (fetch_page net URL (tr ++ [EvPrint "Fetching IMDb Top 250 list..."])).2
    = Ok soup
    /\ let entries := select "li.ipc-metadata-list-summary-item" soup in
       Forall2 record_of (take (Z.to_nat n) entries) movies
       /\ length movies = Nat.min (Z.to_nat n) (length entries).
Proof.
  intros Hn (soup & Hsoup & Hrs)%scrape_top_movies_ok.
  exists soup. split; [assumption|]. cbv zeta.
  unfold capped, limit_given in Hrs. cbn [default] in Hrs.
  destruct (Z.eqb_spec n 0); [lia|]. cbn [negb] in Hrs.
  rewrite slice_to_positive in Hrs by assumption.
  split; [assumption|].
  rewrite <- (Forall2_length _ _ _ Hrs). apply length_take.
Qed.

(** No cap: one record per entry of the list page. *)
Lemma scrape_no_cap (include_details : bool)
    (tr tr' : list event) (movies : list (gmap string pyval)) :
  scrape_top_movies net None include_details tr = (tr', Ok movies) ->
  exists soup,
    (fetch_page net URL (tr ++ [EvPrint "Fetching IMDb Top 250 list..."])).2
    = Ok soup
    /\ Forall2 record_of (select "li.ipc-metadata-list-summary-item" soup) movies.
Proof. intros Hrun. exact (scrape_top_movies_ok _ _ _ _ _ Hrun). Qed.

(** Each record of the result carries the basic fields of its entry
    unchanged, enriched or not. *)
Lemma record_of_basic_fields (e : tag) (r : gmap string pyval) :
  record_of e r ->
  exists basic,
    extract_basic_data e = Ok basic
    /\ forall k, k ∈ basic_keys -> r !! k = basic !! k.
Proof.
  intros (basic & Hb & [->|[soup ->]]); exists basic; (split; [assumption|]).
  - reflexivity.
  - intros k Hk. unfold update. apply lookup_union_r, not_elem_of_dom.
    rewrite dom_details_of. intros Hk'.
    exact (proj1 (elem_of_disjoint _ _) keys_disjoint k Hk Hk').
Qed.

End Orchestrator.

(** The truth test on the cap lets a cap of zero through as no cap, and a
    negative cap counts from the end of the list. *)
Lemma capped_zero {A} (entries : list A) : capped (Some 0) entries = entries.
Proof. reflexivity. Qed.

Lemma capped_negative_example : capped (Some (-1)) [1; 2; 3] = [1; 2].
Proof. reflexivity. Qed.

(** C4. With a cap of 0 on a list page of two entries the run returns two
    records, not [min 0 2 = 0]: [if limit:] takes 0 for no cap. *)
Theorem scrape_cap_zero_returns_all :
  length (select "li.ipc-metadata-list-summary-item" Fixture.list_page) = 2%nat
  /\ (length <$> (scrape_top_movies Fixture.net (Some 0) false []).2) = Ok 2%nat
  /\ (length <$> (scrape_top_movies Fixture.net (Some 0) true []).2) = Ok 2%nat
  /\ Nat.min 0 2 = 0%nat.
Proof. repeat split; vm_compute; reflexivity. Qed.

(** The same page under caps of one, two and three entries. *)
Lemma scrape_cap_examples :
  (length <$> (scrape_top_movies Fixture.net (Some 1) false []).2) = Ok 1%nat
  /\ (length <$> (scrape_top_movies Fixture.net (Some 2) false []).2) = Ok 2%nat
  /\ (length <$> (scrape_top_movies Fixture.net (Some 3) true []).2) = Ok 2%nat
  /\ (length <$> (scrape_top_movies Fixture.net None true []).2) = Ok 2%nat.
Proof. repeat split; vm_compute; reflexivity. Qed.

(** A run with enrichment on the two-entry page: one detail request and
    one pause, for the entry that has a link. *)
Lemma scrape_with_details_example :
  requests (scrape_top_movies Fixture.net None true []).1
  = [URL; Fixture.detail_url]
  /\ sleeps (scrape_top_movies Fixture.net None true []).1 = [1].
Proof. split; vm_compute; reflexivity. Qed.

(** A site that is down: the fault of the first request ends the run. *)
Lemma scrape_site_down :
  (scrape_top_movies Fixture.net_down None true []).2
  = Raise (RequestException (ConnectionError "Name or service not known")).
Proof. vm_compute; reflexivity. Qed.


(** * Further properties of the vote count *)

Section VotesMore.

(** [clean_votes] gives the absent value for the absent, the empty and
    the "N/A" input and for no other: any other text gives a number or
    an exception. *)
Theorem clean_votes_absent_iff (votes_text : option string) :
  clean_votes votes_text = Ok None
  <-> votes_text = None \/ votes_text = Some "" \/ votes_text = Some "N/A".
Proof.
  split; [|intros [->|[->| ->]]; reflexivity].
  destruct votes_text as [t|]; [|now left]. unfold clean_votes.
  destruct (String.eqb_spec t "") as [->|_]; [now right; left|].
  destruct (String.eqb_spec t "N/A") as [->|_]; [now right; right|].
  cbn [orb]. intros Hres. exfalso. revert Hres.
  repeat match goal with
         | |- context [if ?b then _ else _] => destruct b
         end;
    rewrite ?fmap_scaled;
    match goal with
    | |- (Some <$> ?r) = _ -> _ => destruct r; discriminate
    end.
Qed.

(** A text of parentheses and white space only, such as "()", is no
    number: [int] is called on the empty text and raises. *)
Theorem clean_votes_blank_raises (t : string) :
  t <> "" -> strip (replace ")" "" (replace "(" "" t)) = "" ->
  clean_votes (Some t)
  = Raise (ValueError "invalid literal for int() with base 10").
Proof.
  intros Hne Hblank. unfold clean_votes.
  destruct (String.eqb_spec t "") as [->|_]; [congruence|].
  destruct (String.eqb_spec t "N/A") as [->|_]; [discriminate Hblank|].
  cbn [orb]. rewrite Hblank. reflexivity.
Qed.

Lemma clean_votes_blank_raises_witness :
  clean_votes (Some "( )")
  = Raise (ValueError "invalid literal for int() with base 10").
Proof. apply clean_votes_blank_raises; [discriminate | reflexivity]. Defined.

(** What a digit is not. *)
Lemma isdigit_other (c : ascii) :
  isdigit c = true ->
  isspace c = false /\ isspace_num c = false /\ is_underscore c = false
  /\ c <> "-"%char /\ c <> "+"%char /\ c <> ","%char /\ c <> "."%char
  /\ c <> "("%char /\ c <> ")"%char /\ c <> "M"%char /\ c <> "K"%char.
Proof.
  destruct c as [[] [] [] [] [] [] [] []]; intros Hd;
    try discriminate Hd; repeat split; discriminate.
Qed.

Lemma every_impl (p q : ascii -> bool) (s : string) :
  (forall c, p c = true -> q c = true) -> every p s = true -> every q s = true.
Proof.
  intros Hpq. induction s as [|c s IH]; [reflexivity|]. cbn [every].
  intros [Hc Hs]%andb_prop. now rewrite (Hpq c Hc), IH.
Qed.

(** Texts without a given character, without white space. *)
Lemma replace_every (p : ascii -> bool) (x : ascii) (new s : string) :
  p x = false -> every p s = true -> replace x new s = s.
Proof.
  intros Hx. induction s as [|c s IH]; [reflexivity|]. cbn [every replace].
  intros [Hc Hs]%andb_prop. destruct (Ascii.eqb_spec c x) as [->|_]; [congruence|].
  now rewrite IH.
Qed.

Lemma contains_every (p : ascii -> bool) (x : ascii) (s : string) :
  p x = false -> every p s = true -> contains (String x "") s = false.
Proof.
  intros Hx. unfold contains. induction s as [|c s IH]; [reflexivity|].
  cbn [every]. intros [Hc Hs]%andb_prop. rewrite cut_unfold.
  cbn [String.prefix]. destruct (ascii_dec x c) as [->|_]; [congruence|].
  specialize (IH Hs). destruct (cut (String x "") s) as [[? ?]|];
    [discriminate | reflexivity].
Qed.

Lemma strip_by_every (sp p : ascii -> bool) (s : string) :
  (forall c, p c = true -> sp c = false) -> every p s = true ->
  strip_by sp s = s.
Proof.
  intros Hp Hs. unfold strip_by.
  assert (Hl : lstrip_by sp s = s).
  { destruct s as [|c s]; [reflexivity|]. cbn [every] in Hs.
    apply andb_prop in Hs as [Hc _]. cbn [lstrip_by]. now rewrite (Hp c Hc). }
  rewrite Hl. clear Hl. induction s as [|c s IH]; [reflexivity|].
  cbn [every] in Hs. apply andb_prop in Hs as [Hc Hs]. cbn [rstrip_by].
  rewrite (IH Hs), (Hp c Hc). destruct s; reflexivity.
Qed.

Lemma count_char_other (c : ascii) :
  count_char c = true ->
  isspace c = false /\ c <> "("%char /\ c <> ")"%char
  /\ c <> "M"%char /\ c <> "K"%char.
Proof.
  unfold count_char. intros [[Hd| ->%Ascii.eqb_eq]%orb_prop| ->%Ascii.eqb_eq]%orb_prop.
  - destruct (isdigit_other c Hd) as (? & _ & _ & _ & _ & _ & _ & ? & ? & ? & ?).
    repeat split; assumption.
  - repeat split; discriminate.
  - repeat split; discriminate.
Qed.

(** Deleting the commas and then the points leaves the digits. *)
Lemma separators_deleted (s : string) :
  every count_char s = true ->
  replace "." "" (replace "," "" s) = keep isdigit s.
Proof.
  induction s as [|c s IH]; [reflexivity|]. cbn [every].
  intros [Hc Hs]%andb_prop. specialize (IH Hs). cbn [replace keep].
  unfold count_char in Hc.
  apply orb_prop in Hc as [[Hd| ->%Ascii.eqb_eq]%orb_prop| ->%Ascii.eqb_eq].
  - destruct (isdigit_other c Hd) as (_ & _ & _ & _ & _ & Hcomma & Hpoint & _).
    rewrite Hd. rewrite (proj2 (Ascii.eqb_neq c ",")) by assumption.
    cbn [replace]. rewrite (proj2 (Ascii.eqb_neq c ".")) by assumption.
    now rewrite IH.
  - cbn. exact IH.
  - cbn. exact IH.
Qed.

Lemma every_keep (p : ascii -> bool) (s : string) : every p (keep p s) = true.
Proof.
  induction s as [|c s IH]; [reflexivity|]. cbn [keep].
  destruct (p c) eqn:Hc; [cbn [every]; now rewrite Hc|exact IH].
Qed.

(** [int] on a text of digits. *)
Lemma scan_int_digits (d : string) :
  every isdigit d = true ->
  forall prev acc n,
    d <> "" \/ is_underscore prev = false ->
    scan_int prev acc n d
    = Some (Z_of_digits acc d, (n + String.length d)%nat, EmptyString).
Proof.
  induction d as [|c d IH]; intros Hd prev acc n Hprev.
  - destruct Hprev as [Hne|Hu]; [congruence|]. cbn [scan_int String.length].
    now rewrite Hu, Nat.add_0_r.
  - cbn [every] in Hd. apply andb_prop in Hd as [Hc Hd].
    destruct (isdigit_other c Hc) as (_ & _ & Hu & _).
    cbn [scan_int Z_of_digits String.length]. rewrite Hu, Hc.
    rewrite (IH Hd) by now right.
    now replace (S n + String.length d)%nat with (n + S (String.length d))%nat
      by lia.
Qed.

Lemma int_digits (d : string) :
  every isdigit d = true -> d <> "" ->
  (String.length d <= int_max_str_digits)%nat ->
  int d = Ok (Z_of_digits 0 d).
Proof.
  intros Hd Hne Hlen. unfold int.
  rewrite (strip_by_every isspace_num isdigit)
    by (assumption || intros c Hc; apply (isdigit_other c Hc)).
  destruct d as [|c d]; [congruence|].
  pose proof Hd as Hd'. cbn [every] in Hd'. apply andb_prop in Hd' as [Hc _].
  destruct (isdigit_other c Hc) as (_ & _ & Hu & Hminus & Hplus & _).
  unfold take_sign.
  rewrite (proj2 (Ascii.eqb_neq c "-")), (proj2 (Ascii.eqb_neq c "+"))
    by assumption.
  rewrite Hu, (scan_int_digits _ Hd) by (left; discriminate).
  cbn [Nat.add String.length] in Hlen |- *.
  destruct (Nat.ltb_spec int_max_str_digits (S (String.length d)));
    [lia|reflexivity].
Qed.

(** A plain count: a text of digits, commas and points with at least one
    digit (and no more than 4300) gives the number its digits spell; the
    commas and the points are both dropped, wherever they stand. *)
Theorem clean_votes_plain_count (t : string) :
  every count_char t = true -> keep isdigit t <> "" ->
  (String.length (keep isdigit t) <= int_max_str_digits)%nat ->
  clean_votes (Some t) = Ok (Some (Z_of_digits 0 (keep isdigit t))).
Proof.
  intros Hall Hne Hlen. unfold clean_votes.
  destruct (String.eqb_spec t "") as [->|_]; [now cbn in Hne|].
  destruct (String.eqb_spec t "N/A") as [->|_]; [discriminate Hall|].
  cbn [orb].
  rewrite (replace_every count_char "(" "" t), (replace_every count_char ")" "" t)
    by (assumption || reflexivity).
  unfold strip.
  rewrite (strip_by_every isspace count_char)
    by (assumption || intros c Hc; apply (count_char_other c Hc)).
  rewrite (contains_every count_char "M"), (contains_every count_char "K")
    by (assumption || reflexivity).
  rewrite separators_deleted by assumption.
  rewrite int_digits by (assumption || apply every_keep). reflexivity.
Qed.

Lemma clean_votes_plain_count_witness :
  clean_votes (Some "1.234,567") = Ok (Some 1234567).
Proof.
  apply (clean_votes_plain_count "1.234,567");
    [reflexivity | discriminate | apply Nat.leb_le; reflexivity].
Defined.

Lemma clean_votes_millions_witness :
  clean_votes (Some (millions_text 3 2)) = Ok (Some (round_millions 3 2)).
Proof.
  apply (clean_votes_millions_elsewhere 3 2); [lia | lia | congruence | congruence].
Defined.

Lemma thousands_all_ok : forallb thousands_ok (seq 0 1000) = true.
Proof. vm_compute. reflexivity. Qed.

(** Whole thousands are exact: every text "(nK)" with [n] below 1000
    gives [1000 * n]. *)
Theorem clean_votes_thousands (n : nat) :
  (n < 1000)%nat ->
  clean_votes (Some (thousands_text n)) = Ok (Some (1000 * Z.of_nat n)).
Proof.
  intros Hn. pose proof thousands_all_ok as Hall.
  rewrite forallb_forall in Hall.
  assert (Hok : thousands_ok n = true) by (apply Hall, in_seq; lia).
  unfold thousands_ok in Hok.
  destruct (clean_votes (Some (thousands_text n))) as [[v|]|err];
    try discriminate Hok.
  apply Z.eqb_eq in Hok. now subst.
Qed.

Lemma clean_votes_thousands_witness :
  clean_votes (Some (thousands_text 972)) = Ok (Some (1000 * Z.of_nat 972)).
Proof. apply clean_votes_thousands. lia. Defined.

Lemma prefix_empty (s : string) : String.prefix "" s = true.
Proof. destruct s; reflexivity. Qed.

(** Reading commas as points, character by character. *)
Lemma comma_to_point_swap (x : ascii) (s : string) :
  x <> ","%char -> x <> "."%char ->
  replace x "" (replace "," "." s) = replace "," "." (replace x "" s).
Proof.
  intros Hc Hp. induction s as [|c s IH]; [reflexivity|].
  cbn [replace]. destruct (Ascii.eqb_spec c ",") as [->|Hne].
  - rewrite (proj2 (Ascii.eqb_neq "," x)) by congruence.
    cbn [String.append replace].
    rewrite (proj2 (Ascii.eqb_neq "." x)) by congruence.
    cbn [Ascii.eqb Bool.eqb]. now rewrite IH.
  - cbn [replace]. destruct (Ascii.eqb_spec c x) as [->|Hnx].
    + cbn [String.append]. exact IH.
    + cbn [replace]. rewrite (proj2 (Ascii.eqb_neq c ",")) by assumption.
      now rewrite IH.
Qed.

Lemma comma_to_point_twice (s : string) :
  replace "," "." (replace "," "." s) = replace "," "." s.
Proof.
  induction s as [|c s IH]; [reflexivity|]. cbn [replace].
  destruct (Ascii.eqb_spec c ",") as [->|Hne].
  - cbn. now rewrite IH.
  - cbn [replace]. rewrite (proj2 (Ascii.eqb_neq c ",")) by assumption.
    now rewrite IH.
Qed.

Lemma comma_to_point_lstrip (s : string) :
  lstrip_by isspace (replace "," "." s) = replace "," "." (lstrip_by isspace s).
Proof.
  induction s as [|c s IH]; [reflexivity|]. cbn [replace].
  destruct (Ascii.eqb_spec c ",") as [->|Hne].
  - reflexivity.
  - cbn [lstrip_by]. destruct (isspace c); [exact IH|].
    cbn [replace]. now rewrite (proj2 (Ascii.eqb_neq c ",")).
Qed.

Lemma comma_to_point_rstrip (s : string) :
  rstrip_by isspace (replace "," "." s) = replace "," "." (rstrip_by isspace s).
Proof.
  induction s as [|c s IH]; [reflexivity|]. cbn [replace].
  destruct (Ascii.eqb_spec c ",") as [->|Hne].
  - cbn [String.append rstrip_by]. rewrite IH.
    destruct (rstrip_by isspace s) as [|d r]; [reflexivity|].
    cbn [replace]. destruct (Ascii.eqb d ","); reflexivity.
  - cbn [rstrip_by]. rewrite IH.
    destruct (rstrip_by isspace s) as [|d r].
    + cbn [replace]. destruct (isspace c); [reflexivity|].
      cbn [replace]. now rewrite (proj2 (Ascii.eqb_neq c ",")).
    + cbn [replace]. rewrite (proj2 (Ascii.eqb_neq c ",")) by assumption.
      destruct (Ascii.eqb d ","); reflexivity.
Qed.

Lemma comma_to_point_contains (x : ascii) (s : string) :
  x <> ","%char -> x <> "."%char ->
  contains (String x "") (replace "," "." s) = contains (String x "") s.
Proof.
  intros Hc Hp. unfold contains. induction s as [|c s IH]; [reflexivity|].
  cbn [replace]. destruct (Ascii.eqb_spec c ",") as [->|Hne].
  - cbn [String.append]. rewrite !(cut_unfold _ (String _ _)).
    cbn [String.prefix].
    destruct (ascii_dec x ".") as [|_]; [congruence|].
    destruct (ascii_dec x ",") as [|_]; [congruence|].
    destruct (cut (String x "") (replace "," "." s)) as [[? ?]|],
             (cut (String x "") s) as [[? ?]|]; congruence.
  - rewrite !(cut_unfold _ (String _ _)). cbn [String.prefix].
    destruct (ascii_dec x c); [now rewrite !prefix_empty|].
    destruct (cut (String x "") (replace "," "." s)) as [[? ?]|],
             (cut (String x "") s) as [[? ?]|]; congruence.
Qed.

Lemma comma_to_point_fixed (s : string) :
  every (fun c => negb (Ascii.eqb c ".")) (replace "," "." s) = true ->
  replace "," "." s = s.
Proof.
  induction s as [|c s IH]; [reflexivity|]. cbn [replace].
  destruct (Ascii.eqb_spec c ",") as [->|Hne].
  - discriminate.
  - cbn [every]. intros [_ Hs]%andb_prop. now rewrite IH.
Qed.

(** In the suffix branches a comma is read as a decimal point: writing
    a point for every comma of the input does not change the result. *)
Theorem clean_votes_comma_as_point (t : string) :
  let cleaned := strip (replace ")" "" (replace "(" "" t)) in
  contains "M" cleaned = true \/ contains "K" cleaned = true ->
  clean_votes (Some (replace "," "." t)) = clean_votes (Some t).
Proof.
  intros cleaned Hsuffix.
  assert (Hclean : strip (replace ")" "" (replace "(" "" (replace "," "." t)))
                   = replace "," "." cleaned).
  { unfold cleaned, strip, strip_by.
    rewrite !comma_to_point_swap by discriminate.
    now rewrite comma_to_point_lstrip, comma_to_point_rstrip. }
  unfold clean_votes. fold cleaned. rewrite Hclean.
  destruct (String.eqb_spec t "") as [->|Hne];
    [subst cleaned; destruct Hsuffix; discriminate|].
  destruct (String.eqb_spec t "N/A") as [->|Hna];
    [subst cleaned; destruct Hsuffix; discriminate|].
  destruct (String.eqb_spec (replace "," "." t) "") as [He|_].
  { destruct t as [|c t]; [congruence|]. cbn [replace] in He.
    destruct (Ascii.eqb c ","); discriminate He. }
  destruct (String.eqb_spec (replace "," "." t) "N/A") as [He|_].
  { rewrite comma_to_point_fixed in He by (rewrite He; reflexivity).
    congruence. }
  cbn [orb].
  rewrite !comma_to_point_contains by discriminate.
  rewrite !comma_to_point_swap by discriminate.
  rewrite !comma_to_point_twice.
  destruct Hsuffix as [HM|HK].
  - rewrite HM. reflexivity.
  - rewrite HK. destruct (contains "M" cleaned); reflexivity.
Qed.

Lemma clean_votes_comma_as_point_witness :
  clean_votes (Some (replace "," "." "(3,1 M)")) = clean_votes (Some "(3,1 M)").
Proof. apply clean_votes_comma_as_point. left. reflexivity. Defined.

End VotesMore.

(** * Further properties of titles and durations *)

Section TextsMore.

(** The first occurrence of a separator of two different characters,
    after a part without it. *)
Lemma cut_two (a b : ascii) (x rest : string) :
  a <> b -> contains (String a (String b "")) x = false ->
  cut (String a (String b "")) (x +:+ String a (String b rest)) = Some (x, rest).
Proof.
  intros Hab. unfold contains. induction x as [|c x IH]; intros Hx.
  - cbn [String.append]. rewrite cut_unfold. cbn [String.prefix].
    destruct (ascii_dec a a); [|congruence].
    destruct (ascii_dec b b); [|congruence]. now rewrite prefix_empty.
  - rewrite cut_unfold in Hx.
    destruct (String.prefix _ (String c x)) eqn:Hp; [discriminate|].
    destruct (cut _ x) as [[? ?]|] eqn:Hcut; [discriminate|].
    cbn [String.append]. rewrite cut_unfold, (IH eq_refl).
    replace (String.prefix (String a (String b ""))
               (String c (x +:+ String a (String b rest)))) with false;
      [reflexivity|].
    cbn [String.prefix] in Hp |- *. destruct (ascii_dec a c); [|reflexivity].
    destruct x as [|d x]; cbn [String.append String.prefix] in Hp |- *.
    + destruct (ascii_dec b a); [congruence | reflexivity].
    + destruct (ascii_dec b d); [|reflexivity].
      now rewrite prefix_empty in Hp.
Qed.

(** [clean_title] cuts at the first ". " only: what stands before it is
    dropped whatever it is, what follows is returned whole, later
    separators included. *)
Theorem clean_title_first_separator (rank title : string) :
  contains ". " rank = false ->
  clean_title (Some (rank +:+ ". " +:+ title)) = title.
Proof.
  intros Hrank. apply (clean_title_cut _ rank).
  apply (cut_two "." " "); [discriminate | assumption].
Qed.

Lemma clean_title_first_separator_witness :
  clean_title (Some ("12" +:+ ". " +:+ "Mr. Smith. Part 2")) = "Mr. Smith. Part 2".
Proof. apply clean_title_first_separator. reflexivity. Defined.

(** [span_by] splits a text in two. *)
Lemma span_by_app (p : ascii -> bool) (s d r : string) :
  span_by p s = (d, r) -> s = d +:+ r.
Proof.
  revert d r. induction s as [|c s IH]; intros d r; cbn [span_by].
  - intros [= <- <-]. reflexivity.
  - destruct (p c); [|intros [= <- <-]; reflexivity].
    destruct (span_by p s) as [d' r']. intros [= <- <-].
    cbn [String.append]. now rewrite (IH d' r' eq_refl).
Qed.

Lemma span_by_every (p : ascii -> bool) (d r : string) :
  every p d = true ->
  match r with String c _ => p c = false | EmptyString => True end ->
  span_by p (d +:+ r) = (d, r).
Proof.
  intros Hd Hr. induction d as [|c d IH].
  - cbn [String.append]. destruct r as [|c r]; [reflexivity|].
    cbn [span_by]. now rewrite Hr.
  - cbn [every] in Hd. apply andb_prop in Hd as [Hc Hd].
    cbn [String.append span_by]. now rewrite Hc, (IH Hd).
Qed.

Lemma contains_cons (sub : string) (c : ascii) (s : string) :
  contains sub s = true -> contains sub (String c s) = true.
Proof.
  unfold contains. intros H. rewrite cut_unfold.
  destruct (String.prefix sub (String c s)); [reflexivity|].
  destruct (cut sub s) as [[? ?]|]; [reflexivity | discriminate].
Qed.

Lemma match_duration_hours (s m : string) :
  match_duration s = Some m -> contains "h" s = true.
Proof.
  unfold match_duration. destruct (span_by isdigit s) as [d r] eqn:Hspan.
  apply span_by_app in Hspan as ->.
  destruct d as [|d0 d]; [discriminate|]. destruct r as [|c r]; [discriminate|].
  destruct (Ascii.eqb_spec c "h") as [->|]; [|discriminate]. intros _.
  apply (contains_app "h" (String d0 d) r).
Qed.

Lemma search_duration_hours (s m : string) :
  search_duration s = Some m -> contains "h" s = true.
Proof.
  induction s as [|c s IH]; cbn [search_duration].
  - destruct (match_duration "") eqn:E; [|discriminate]. intros _.
    exact (match_duration_hours _ _ E).
  - destruct (match_duration (String c s)) eqn:E.
    + intros _. exact (match_duration_hours _ _ E).
    + intros H. apply contains_cons. now apply IH.
Qed.

(** The pattern wants hours: a runtime text without the letter "h", such
    as "45m", matches nowhere. *)
Theorem search_duration_needs_hours (s : string) :
  contains "h" s = false -> search_duration s = None.
Proof.
  intros Hh. destruct (search_duration s) as [m|] eqn:E; [|reflexivity].
  apply search_duration_hours in E. congruence.
Qed.

Lemma search_duration_needs_hours_witness : search_duration "45m" = None.
Proof. apply search_duration_needs_hours. reflexivity. Defined.

Lemma match_duration_no_digit (c : ascii) (s : string) :
  isdigit c = false -> match_duration (String c s) = None.
Proof. intros Hc. unfold match_duration. cbn [span_by]. now rewrite Hc. Qed.

(** The match is the leftmost run of digits followed by "h", then the
    white space, the digits and the "m" that follow: text in front
    without digits and text behind the "m" are left out. *)
Theorem search_duration_hours_minutes (pre hours ws minutes rest : string) :
  every (fun c => negb (isdigit c)) pre = true ->
  every isdigit hours = true -> hours <> "" ->
  every isspace ws = true ->
  every isdigit minutes = true -> minutes <> "" ->
  search_duration (pre +:+ hours +:+ "h" +:+ ws +:+ minutes +:+ "m" +:+ rest)
  = Some (hours +:+ "h" +:+ ws +:+ minutes +:+ "m").
Proof.
  intros Hpre Hh Hhne Hws Hm Hmne.
  assert (Hmatch : match_duration
                     (hours +:+ "h" +:+ ws +:+ minutes +:+ "m" +:+ rest)
                   = Some (hours +:+ "h" +:+ ws +:+ minutes +:+ "m")).
  { unfold match_duration.
    rewrite (span_by_every isdigit hours) by (assumption || reflexivity).
    destruct hours as [|h0 hs]; [congruence|]. cbn [String.append Ascii.eqb Bool.eqb].
    destruct minutes as [|m0 ms]; [congruence|].
    pose proof Hm as Hm'. cbn [every] in Hm'. apply andb_prop in Hm' as [Hm0 _].
    rewrite (span_by_every isspace ws)
      by (assumption || (cbn [String.append]; apply (isdigit_other m0 Hm0))).
    rewrite (span_by_every isdigit (String m0 ms)) by (assumption || reflexivity).
    reflexivity. }
  induction pre as [|c pre IH].
  - cbn [String.append]. destruct hours as [|h0 hs]; [congruence|].
    cbn [String.append search_duration] in Hmatch |- *. now rewrite Hmatch.
  - cbn [every] in Hpre. apply andb_prop in Hpre as [Hc Hpre].
    apply negb_true_iff in Hc. cbn [String.append search_duration].
    rewrite (match_duration_no_digit c _ Hc). exact (IH Hpre).
Qed.

Lemma search_duration_hours_minutes_witness :
  search_duration ("Duracion" +:+ "2" +:+ "h" +:+ " " +:+ "22" +:+ "m" +:+ "in")
  = Some ("2" +:+ "h" +:+ " " +:+ "22" +:+ "m").
Proof.
  apply search_duration_hours_minutes; first [reflexivity | discriminate].
Defined.

End TextsMore.

(** * The genre chart reads back what the scraper wrote *)

Section Genres.
Context {tag : Type} `{!Soup tag} `{!SetOrder}.
Import Visualizations.

Lemma cut_char_app (c : ascii) (x rest : string) :
  contains (String c "") x = false ->
  cut (String c "") (x +:+ String c rest) = Some (x, rest).
Proof.
  unfold contains. induction x as [|d x IH]; intros Hx.
  - cbn [String.append]. rewrite cut_unfold. cbn [String.prefix].
    destruct (ascii_dec c c); [|congruence]. now rewrite prefix_empty.
  - rewrite cut_unfold in Hx. cbn [String.prefix] in Hx.
    cbn [String.append]. rewrite cut_unfold. cbn [String.prefix].
    destruct (ascii_dec c d); [now rewrite prefix_empty in Hx|].
    destruct (cut (String c "") x) as [[? ?]|]; [discriminate|].
    now rewrite (IH eq_refl).
Qed.

Lemma contains_char_app (c : ascii) (a b : string) :
  contains (String c "") a = false -> contains (String c "") b = false ->
  contains (String c "") (a +:+ b) = false.
Proof.
  intros Ha Hb. unfold contains in *. induction a as [|d a IH]; [exact Hb|].
  rewrite cut_unfold in Ha. cbn [String.prefix] in Ha.
  cbn [String.append]. rewrite cut_unfold. cbn [String.prefix].
  destruct (ascii_dec c d); [now rewrite prefix_empty in Ha|].
  destruct (cut (String c "") a) as [[? ?]|]; [discriminate|].
  specialize (IH eq_refl).
  destruct (cut (String c "") (a +:+ b)) as [[? ?]|]; [discriminate|reflexivity].
Qed.

Lemma split_max_comma_join (l : list string) :
  forall (x pre : string) (n : nat),
    Forall (fun g => contains "," g = false) (x :: l) ->
    contains "," pre = false ->
    (length l <= n)%nat ->
    split_max "," n (pre +:+ join ", " (x :: l))
    = (pre +:+ x) :: (String " " <$> l).
Proof.
  induction l as [|y l IH]; intros x pre n Hall Hpre Hn.
  - inversion_clear Hall as [|? ? Hx _]. destruct n; [reflexivity|].
    cbn [join split_max].
    now rewrite (cut_none _ _ (contains_char_app _ _ _ Hpre Hx)).
  - inversion_clear Hall as [|? ? Hx Hrest].
    destruct n as [|n]; [simpl in Hn; lia|].
    change (join ", " (x :: y :: l))
      with (x +:+ String "," (String " " (join ", " (y :: l)))).
    rewrite <- append_assoc. cbn [split_max].
    rewrite (cut_char_app _ _ _ (contains_char_app _ _ _ Hpre Hx)).
    f_equal.
    apply (IH y " " n Hrest eq_refl). simpl in Hn. lia.
Qed.

Lemma strip_space (g : string) : strip (String " " g) = strip g.
Proof. reflexivity. Qed.

(** Cutting a joined genre text at "," and stripping the pieces gives the
    genres back, when there is at least one, none has a comma inside and
    each is free of white space at its ends. *)
Lemma genres_list_join (genres : list string) :
  genres <> [] ->
  Forall (fun g => contains "," g = false /\ strip g = g) genres ->
  genres_list (join ", " genres) = genres.
Proof.
  destruct genres as [|x l]; [congruence|]. intros _ Hall.
  unfold genres_list, split.
  rewrite (split_max_comma_join l x "");
    [| eapply Forall_impl; [exact Hall | now intros ? [? _]] | reflexivity
     | apply length_join].
  cbn [String.append].
  inversion_clear Hall as [|? ? [_ Hx] Hl]. cbn [fmap list_fmap]. rewrite Hx.
  f_equal. induction Hl as [|g l [_ Hg] _ IH]; [reflexivity|].
  cbn [fmap list_fmap] in IH |- *. now rewrite strip_space, Hg, IH.
Qed.

Lemma all_genres_loop_concat (column acc : list string) :
  all_genres_loop column acc = acc ++ concat (genres_list <$> column).
Proof.
  revert acc. induction column as [|s column IH]; intros acc.
  - cbn. now rewrite app_nil_r.
  - cbn [all_genres_loop fmap list_fmap concat]. now rewrite IH, app_assoc.
Qed.

(** Round trip between the two modules: from the genre fields that
    [extract_movie_details] writes for pages with at least one genre
    chip (texts without comma and without white space at the ends), the
    loop of [chart_top_genres] collects exactly the chip texts, page by
    page and in order. *)
Theorem all_genres_of_scraped (soups : list tag) :
  Forall (fun soup =>
            let genres := get_text <$> select "a.ipc-chip span" soup in
            genres <> []
            /\ Forall (fun g => contains "," g = false /\ strip g = g) genres)
         soups ->
  exists column,
    Forall2 (fun soup genres_str =>
               details_of soup !! "genres" = Some (PyStr genres_str))
            soups column
    /\ all_genres column
       = concat ((fun soup => get_text <$> select "a.ipc-chip span" soup)
                   <$> soups).
Proof.
  intros Hall.
  exists ((fun soup => join ", " (get_text <$> select "a.ipc-chip span" soup))
            <$> soups).
  split.
  - clear Hall. induction soups as [|soup soups IH]; constructor;
      [reflexivity | exact IH].
  - unfold all_genres. rewrite all_genres_loop_concat. cbn [app]. f_equal.
    induction Hall as [|soup soups [Hne Hgs] _ IH]; [reflexivity|].
    cbn [fmap list_fmap] in IH |- *. now rewrite genres_list_join, IH.
Qed.

(** A film without hours in its runtime text has the duration "N/A". *)
Theorem duration_without_hours (net : network) (url : string)
    (tr : list event) (content : string) (runtime : tag) :
  net tr url = Response 200 content ->
  select_one "li[data-testid='title-techspec_runtime']" (BeautifulSoup content)
  = Some runtime ->
  contains "h" (get_text runtime) = false ->
  exists details,
    extract_movie_details net url tr = (tr ++ [EvGet url HEADERS], Ok details)
    /\ details !! "duration" = Some (PyStr "N/A").
Proof.
  intros Hnet Hrun Hh. exists (details_of (BeautifulSoup content)). split.
  - rewrite extract_movie_details_eq, fetch_page_eq, Hnet. reflexivity.
  - unfold details_of. rewrite Hrun, (search_duration_needs_hours _ Hh).
    reflexivity.
Qed.

End Genres.

Lemma all_genres_of_scraped_witness :
  exists column,
    Forall2 (fun soup genres_str =>
               details_of soup !! "genres" = Some (PyStr genres_str))
            [Fixture.detail_page] column
    /\ Visualizations.all_genres column
       = concat ((fun soup => get_text <$> select "a.ipc-chip span" soup)
                   <$> [Fixture.detail_page]).
Proof.
  apply all_genres_of_scraped. repeat constructor; discriminate.
Defined.

(** * Further properties of the orchestrator *)

Section OrchestratorMore.
Context {tag : Type} `{!Soup tag} `{!SetOrder}.
Variable net : network.

(** A detail URL is never the empty text. *)
Lemma extract_movie_link_nonempty (e : tag) (url : string) :
  extract_movie_link e = Some url -> String.eqb url "" = false.
Proof.
  unfold extract_movie_link.
  destruct (select_one "a.ipc-title-link-wrapper" e); [|discriminate].
  intros [= <-]. reflexivity.
Qed.

(** A node that is present but lacks its attribute: the image URL is then
    the absent value (not "N/A"), and the detail URL is the bare site
    origin. *)
Theorem extract_basic_data_missing_attribute (e : tag) (d : gmap string pyval) :
  extract_basic_data e = Ok d ->
  (forall img, select_one "img.ipc-image" e = Some img ->
               get img "src" = None -> d !! "image_url" = Some PyNone)
  /\ (forall link, select_one "a.ipc-title-link-wrapper" e = Some link ->
                   get link "href" = None ->
                   d !! "detail_url" = Some (PyStr "https://www.imdb.com")).
Proof.
  unfold extract_basic_data.
  destruct (clean_votes _) as [votes|err]; [|discriminate]. intros [= <-].
  split.
  - intros img -> ->. reflexivity.
  - intros link Hl Hh. unfold extract_movie_link. rewrite Hl, Hh. reflexivity.
Qed.

(** The loop of an enriching run that ends well: one request and one
    pause of a second for each entry with a link, in order, and each
    record enriched exactly when its entry has a link. *)
Lemma scrape_loop_enriched (movie_elements : list tag) :
  forall (total i : nat) (movies out : list (gmap string pyval))
         (tr tr' : list event),
    scrape_loop net true total i movie_elements movies tr = (tr', Ok out) ->
    exists records new,
      out = movies ++ records /\ tr' = tr ++ new
      /\ requests new = omap extract_movie_link movie_elements
      /\ sleeps new = (fun _ => 1) <$> omap extract_movie_link movie_elements
      /\ Forall2 enriched_record movie_elements records.
Proof.
  induction movie_elements as [|e rest IH]; intros total i movies out tr tr'.
  - intros [= <- <-]. exists [], []. rewrite !app_nil_r.
    repeat split; constructor.
  - cbn [scrape_loop]. rewrite bind_lift.
    destruct (extract_basic_data e) as [d|err] eqn:Hd; [|discriminate].
    destruct (getitem_basic _ _ Hd) as [[title Ht] Hu].
    rewrite bind_fmap_lift, Hu.
    destruct (extract_movie_link e) as [url|] eqn:Hl; cbn [from_option truthy].
    + rewrite (extract_movie_link_nonempty _ _ Hl). cbn [negb].
      rewrite bind_assoc, bind_lift, Ht.
      unfold print. rewrite bind_assoc, bind_emit.
      rewrite bind_assoc, bind_lift.
      rewrite bind_assoc. unfold mbind at 1, io_bind at 1.
      rewrite extract_movie_details_eq, fetch_page_eq. cbn [snd str_of].
      destruct (net _ _) as [status content|f]; [|discriminate].
      destruct (status =? 200); [|discriminate].
      cbn [fmap result_fmap bind].
      unfold sleep. rewrite bind_assoc, bind_emit, bind_ret.
      intros Hrun. destruct (IH _ _ _ _ _ _ Hrun) as (rs & new & -> & -> & Hrq & Hsl & Hrs).
      eexists (_ :: rs), (_ :: _ :: _ :: new).
      rewrite <- !app_assoc. split; [reflexivity|]. split; [reflexivity|].
      cbn [omap list_omap fmap list_fmap requests sleeps]. rewrite Hl.
      fold (requests new). fold (sleeps new). rewrite Hrq, Hsl.
      repeat split. constructor; [|exact Hrs].
      exists d. split; [assumption|]. rewrite Hl. eauto.
    + cbn [negb]. rewrite bind_assoc, bind_lift, Ht.
      unfold print. rewrite bind_assoc, bind_emit, bind_ret.
      intros Hrun. destruct (IH _ _ _ _ _ _ Hrun) as (rs & new & -> & -> & Hrq & Hsl & Hrs).
      eexists (_ :: rs), (_ :: new).
      rewrite <- !app_assoc. split; [reflexivity|]. split; [reflexivity|].
      cbn [omap list_omap fmap list_fmap requests sleeps]. rewrite Hl.
      fold (requests new). fold (sleeps new). rewrite Hrq, Hsl.
      repeat split. constructor; [|exact Hrs].
      exists d. split; [assumption|]. now rewrite Hl.
Qed.

(** An enriching run that ends well has requested the list page and then
    the detail page of each capped entry with a link, in ranking order,
    with one pause of a second per detail page; the record of an entry is
    enriched exactly when the entry has a link. *)
Theorem scrape_enriching_run (limit : option Z) (tr tr' : list event)
    (movies : list (gmap string pyval)) :
  scrape_top_movies net limit true tr = (tr', Ok movies) ->
  exists soup new,
    (fetch_page net URL (tr ++ [EvPrint "Fetching IMDb Top 250 list..."])).2
    = Ok soup
    /\ tr' = tr ++ new
    /\ let entries :=
         capped limit (select "li.ipc-metadata-list-summary-item" soup) in
       requests new = URL :: omap extract_movie_link entries
       /\ sleeps new = (fun _ => 1) <$> omap extract_movie_link entries
       /\ Forall2 enriched_record entries movies.
Proof.
  rewrite scrape_top_movies_eq. cbv zeta.
  destruct (fetch_page net URL _).2 as [soup|err]; [|discriminate].
  destruct (scrape_loop _ _ _ _ _ _ _) as [tr3 [out|err]] eqn:Hloop;
    [|discriminate].
  intros [= <- <-]. exists soup.
  destruct (scrape_loop_enriched _ _ _ _ _ _ _ Hloop)
    as (rs & new & -> & -> & Hrq & Hsl & Hrs).
  destruct (limit_given limit); eexists; rewrite <- !app_assoc;
    (split; [reflexivity|]); (split; [reflexivity|]);
    rewrite ?requests_app, ?sleeps_app, Hrq, Hsl; cbn [app];
    rewrite ?app_nil_r; repeat split; exact Hrs.
Qed.

(** A detail page that does not answer with status 200 ends the run on
    the spot: the exception of [fetch_page] leaves the loop right after
    the request, without pause, and the records built so far are gone. *)
Theorem detail_failure_aborts (total i : nat) (e : tag) (rest : list tag)
    (movies : list (gmap string pyval)) (tr : list event) (url : string) :
  returns (extract_basic_data e) ->
  extract_movie_link e = Some url ->
  (forall tr0 content, net tr0 url <> Response 200 content) ->
  exists line err,
    scrape_loop net true total i (e :: rest) movies tr
    = ((tr ++ [EvPrint line]) ++ [EvGet url HEADERS], Raise err)
    /\ (fetch_page net url (tr ++ [EvPrint line])).2 = Raise err.
Proof.
  intros [d Hd] Hl Hnet. cbn [scrape_loop]. rewrite bind_lift, Hd.
  destruct (getitem_basic _ _ Hd) as [[title Ht] Hu].
  rewrite bind_fmap_lift, Hu, Hl. cbn [from_option truthy].
  rewrite (extract_movie_link_nonempty _ _ Hl). cbn [negb].
  rewrite bind_assoc, bind_lift, Ht.
  unfold print. rewrite bind_assoc, bind_emit.
  rewrite bind_assoc, bind_lift.
  rewrite bind_assoc. unfold mbind at 1, io_bind at 1.
  exists ("[" +:+ pretty (S i) +:+ "/" +:+ pretty total
          +:+ "] Fetching details for: " +:+ title).
  rewrite extract_movie_details_eq, !fetch_page_eq. cbn [snd str_of].
  match goal with
  | |- context [net ?tr0 url] => specialize (Hnet tr0); destruct (net tr0 url)
      as [status content|f]
  end.
  - destruct (Z.eqb_spec status 200) as [->|_]; [now destruct (Hnet content)|].
    eexists. split; reflexivity.
  - eexists. split; reflexivity.
Qed.

(** When the list page does not answer with status 200 the run ends with
    the exception of [fetch_page], after the opening line and the one
    request. *)
Theorem list_failure_aborts (limit : option Z) (include_details : bool)
    (tr : list event) :
  (forall content,
      net (tr ++ [EvPrint "Fetching IMDb Top 250 list..."]) URL
      <> Response 200 content) ->
  exists err,
    scrape_top_movies net limit include_details tr
    = (tr ++ [EvPrint "Fetching IMDb Top 250 list..."; EvGet URL HEADERS],
       Raise err)
    /\ (fetch_page net URL
          (tr ++ [EvPrint "Fetching IMDb Top 250 list..."])).2 = Raise err.
Proof.
  intros Hnet. rewrite scrape_top_movies_eq. cbv zeta. rewrite fetch_page_eq.
  cbn [snd]. rewrite <- app_assoc. cbn [app].
  destruct (net _ URL) as [status content|f].
  - destruct (Z.eqb_spec status 200) as [->|_]; [now destruct (Hnet content)|].
    eexists. split; reflexivity.
  - eexists. split; reflexivity.
Qed.

(** A negative cap counts from the end of the list: the run returns the
    records of all entries but the last [-n], in order. *)
Theorem scrape_cap_negative (n : Z) (include_details : bool)
    (tr tr' : list event) (movies : list (gmap string pyval)) :
  n < 0 ->
  scrape_top_movies net (Some n) include_details tr = (tr', Ok movies) ->
  exists soup,
    (fetch_page net URL (tr ++ [EvPrint "Fetching IMDb Top 250 list..."])).2
    = Ok soup
    /\ let entries := select "li.ipc-metadata-list-summary-item" soup in
       Forall2 record_of (take (length entries - Z.to_nat (- n)) entries) movies
       /\ length movies = (length entries - Z.to_nat (- n))%nat.
Proof.
  intros Hn (soup & Hsoup & Hrs)%scrape_top_movies_ok.
  exists soup. split; [assumption|]. cbv zeta.
  unfold capped, limit_given in Hrs.
  change (default 0 (Some n)) with n in Hrs. unfold slice_to in Hrs.
  destruct (Z.eqb_spec n 0); [lia|]. cbn [negb] in Hrs.
  destruct (Z.leb_spec 0 n); [lia|].
  replace (Z.to_nat (Z.of_nat (length (select _ soup)) + n))
    with (length (select "li.ipc-metadata-list-summary-item" soup)
          - Z.to_nat (- n))%nat in Hrs by lia.
  split; [assumption|].
  rewrite <- (Forall2_length _ _ _ Hrs), length_take. lia.
Qed.

(** One entry whose vote text [clean_votes] rejects is enough to lose
    the batch: a run returns records only if the vote text of every
    capped entry parses. *)
Theorem scrape_needs_every_vote (limit : option Z) (include_details : bool)
    (tr tr' : list event) (movies : list (gmap string pyval)) :
  scrape_top_movies net limit include_details tr = (tr', Ok movies) ->
  exists soup,
    (fetch_page net URL (tr ++ [EvPrint "Fetching IMDb Top 250 list..."])).2
    = Ok soup
    /\ Forall (fun e => returns (clean_votes (Some (votes_raw e))))
              (capped limit (select "li.ipc-metadata-list-summary-item" soup)).
Proof.
  intros (soup & Hsoup & Hrs)%scrape_top_movies_ok.
  exists soup. split; [assumption|].
  induction Hrs as [|e r es rs (basic & Hb & _) _ IH]; constructor; [|exact IH].
  apply extract_basic_data_returns. now exists basic.
Qed.

Lemma mapM_result_ok {A B} (f : A -> result B) (l : list A) (k : list B) :
  mapM f l = Ok k -> Forall2 (fun a b => f a = Ok b) l k.
Proof.
  revert k. induction l as [|a l IH]; intros k; cbn [mapM].
  - intros [= <-]. constructor.
  - destruct (f a) as [b|err] eqn:Hb; [|discriminate]. cbn.
    destruct (mapM f l) as [k'|err]; [|discriminate]. intros [= <-].
    constructor; [assumption | now apply IH].
Qed.

(** The records of a run without enrichment are the basic records. *)
Lemma scrape_plain_records (limit : option Z) (tr tr' : list event)
    (movies : list (gmap string pyval)) :
  scrape_top_movies net limit false tr = (tr', Ok movies) ->
  exists soup,
    (fetch_page net URL (tr ++ [EvPrint "Fetching IMDb Top 250 list..."])).2
    = Ok soup
    /\ Forall2 (fun e r => extract_basic_data e = Ok r)
         (capped limit (select "li.ipc-metadata-list-summary-item" soup))
         movies.
Proof.
  rewrite scrape_top_movies_eq. cbv zeta.
  destruct (fetch_page net URL _).2 as [soup|err]; [|discriminate].
  match goal with
  | |- context [scrape_loop net false ?total ?i ?els ?ms ?trl] =>
      destruct (scrape_loop_basic net els total i ms trl) as (new & -> & _ & _)
  end.
  destruct (mapM extract_basic_data _) as [rs|err] eqn:Hm; [|discriminate].
  cbn [fmap result_fmap bind app]. intros [= <- <-].
  exists soup. split; [reflexivity|]. now apply mapM_result_ok.
Qed.

(** The records of a run have the six basic fields, or those and the six
    detail fields; without enrichment, the six basic fields. *)
Theorem scrape_record_fields (limit : option Z) (include_details : bool)
    (tr tr' : list event) (movies : list (gmap string pyval)) :
  scrape_top_movies net limit include_details tr = (tr', Ok movies) ->
  Forall (fun r => dom r = basic_keys
                   \/ (include_details = true
                       /\ dom r = basic_keys ∪ detail_keys)) movies.
Proof.
  destruct include_details.
  - intros (soup & _ & Hrs)%scrape_top_movies_ok.
    induction Hrs as [|e r es rs (basic & Hb & Hr) _ IH]; constructor;
      [|exact IH].
    destruct Hr as [->|[s ->]].
    + left. exact (dom_basic _ _ Hb).
    + right. split; [reflexivity|]. unfold update.
      rewrite dom_union_L, dom_details_of, (dom_basic _ _ Hb).
      apply union_comm_L.
  - intros (soup & _ & Hrs)%scrape_plain_records.
    induction Hrs as [|e r es rs Hb _ IH]; constructor; [|exact IH].
    left. exact (dom_basic _ _ Hb).
Qed.

End OrchestratorMore.


(** * The further properties on the sample pages *)

Lemma clean_votes_absent_iff_witness : clean_votes (Some "N/A") = Ok None.
Proof. apply (proj2 (clean_votes_absent_iff (Some "N/A"))). right. now right. Defined.

Lemma duration_without_hours_witness :
  exists details,
    @extract_movie_details _ Pages.short_soup _ Fixture.net Fixture.detail_url []
    = ([] ++ [EvGet Fixture.detail_url HEADERS], Ok details)
    /\ details !! "duration" = Some (PyStr "N/A").
Proof.
  apply (@duration_without_hours _ Pages.short_soup _ Fixture.net
           Fixture.detail_url [] "detail"
           (Fixture.leaf "li[data-testid='title-techspec_runtime']" "Duracion45m"));
    reflexivity.
Defined.

Lemma extract_basic_data_missing_attribute_witness :
  exists d,
    extract_basic_data Pages.entry_no_attributes = Ok d
    /\ d !! "image_url" = Some PyNone
    /\ d !! "detail_url" = Some (PyStr "https://www.imdb.com").
Proof.
  destruct (extract_basic_data Pages.entry_no_attributes) as [d|err] eqn:Hd;
    [|vm_compute in Hd; discriminate].
  exists d. split; [reflexivity|].
  destruct (extract_basic_data_missing_attribute _ d Hd) as [Himg Hlink].
  split; [eapply Himg | eapply Hlink]; reflexivity.
Defined.

Lemma scrape_enriching_run_witness :
  exists movies,
    (scrape_top_movies Fixture.net None true []).2 = Ok movies
    /\ Forall2 enriched_record [Fixture.entry_full; Fixture.entry_bare] movies.
Proof.
  destruct (scrape_top_movies Fixture.net None true []) as [tr' [movies|err]]
    eqn:Hrun; [|vm_compute in Hrun; discriminate].
  exists movies. split; [reflexivity|].
  destruct (scrape_enriching_run Fixture.net None [] tr' movies Hrun)
    as (soup & new & Hsoup & _ & _ & _ & Hrs).
  vm_compute in Hsoup. injection Hsoup as <-. exact Hrs.
Defined.

Lemma detail_failure_aborts_witness :
  exists line err,
    scrape_loop Fixture.net true 1 0 [Pages.entry_dead_link] [] []
    = (([] ++ [EvPrint line]) ++ [EvGet Pages.dead_url HEADERS], Raise err)
    /\ (fetch_page Fixture.net Pages.dead_url ([] ++ [EvPrint line])).2 = Raise err.
Proof.
  apply (detail_failure_aborts Fixture.net 1 0 Pages.entry_dead_link [] [] []
           Pages.dead_url).
  - eexists. vm_compute. reflexivity.
  - reflexivity.
  - intros tr0 content. vm_compute. discriminate.
Defined.

Lemma list_failure_aborts_witness :
  exists err,
    scrape_top_movies Fixture.net_down None true []
    = ([] ++ [EvPrint "Fetching IMDb Top 250 list..."; EvGet URL HEADERS],
       Raise err)
    /\ (fetch_page Fixture.net_down URL
          ([] ++ [EvPrint "Fetching IMDb Top 250 list..."])).2 = Raise err.
Proof.
  apply (list_failure_aborts Fixture.net_down None true []).
  intros content. discriminate.
Defined.

Lemma scrape_cap_positive_witness :
  exists movies,
    (scrape_top_movies Fixture.net (Some 1) true []).2 = Ok movies
    /\ length movies = Nat.min (Z.to_nat 1) 2.
Proof.
  destruct (scrape_top_movies Fixture.net (Some 1) true []) as [tr' [movies|err]]
    eqn:Hrun; [|vm_compute in Hrun; discriminate].
  exists movies. split; [reflexivity|].
  destruct (scrape_cap_positive Fixture.net 1 true [] tr' movies ltac:(lia) Hrun)
    as (soup & Hsoup & _ & Hlen).
  vm_compute in Hsoup. injection Hsoup as <-. exact Hlen.
Defined.

Lemma scrape_cap_negative_witness :
  exists movies,
    (scrape_top_movies Fixture.net (Some (-1)) false []).2 = Ok movies
    /\ length movies = (2 - Z.to_nat (- -1))%nat.
Proof.
  destruct (scrape_top_movies Fixture.net (Some (-1)) false [])
    as [tr' [movies|err]] eqn:Hrun; [|vm_compute in Hrun; discriminate].
  exists movies. split; [reflexivity|].
  destruct (scrape_cap_negative Fixture.net (-1) false [] tr' movies
              ltac:(lia) Hrun) as (soup & Hsoup & _ & Hlen).
  vm_compute in Hsoup. injection Hsoup as <-. exact Hlen.
Defined.

Lemma scrape_no_cap_witness :
  exists movies,
    (scrape_top_movies Fixture.net None false []).2 = Ok movies
    /\ Forall2 record_of [Fixture.entry_full; Fixture.entry_bare] movies.
Proof.
  destruct (scrape_top_movies Fixture.net None false []) as [tr' [movies|err]]
    eqn:Hrun; [|vm_compute in Hrun; discriminate].
  exists movies. split; [reflexivity|].
  destruct (scrape_no_cap Fixture.net false [] tr' movies Hrun)
    as (soup & Hsoup & Hrs).
  vm_compute in Hsoup. injection Hsoup as <-. exact Hrs.
Defined.

Lemma scrape_needs_every_vote_witness :
  exists movies,
    (scrape_top_movies Fixture.net None false []).2 = Ok movies
    /\ Forall (fun e => returns (clean_votes (Some (votes_raw e))))
         [Fixture.entry_full; Fixture.entry_bare].
Proof.
  destruct (scrape_top_movies Fixture.net None false []) as [tr' [movies|err]]
    eqn:Hrun; [|vm_compute in Hrun; discriminate].
  exists movies. split; [reflexivity|].
  destruct (scrape_needs_every_vote Fixture.net None false [] tr' movies Hrun)
    as (soup & Hsoup & Hall).
  vm_compute in Hsoup. injection Hsoup as <-. exact Hall.
Defined.

Lemma scrape_record_fields_witness :
  exists movies,
    (scrape_top_movies Fixture.net None true []).2 = Ok movies
    /\ Forall (fun r => dom r = basic_keys
                        \/ (true = true /\ dom r = basic_keys ∪ detail_keys))
         movies.
Proof.
  destruct (scrape_top_movies Fixture.net None true []) as [tr' [movies|err]]
    eqn:Hrun; [|vm_compute in Hrun; discriminate].
  exists movies. split; [reflexivity|].
  exact (scrape_record_fields Fixture.net None true [] tr' movies Hrun).
Defined.
